(** * Metrics-view aggregation: the SQL builder and the pivot paths

    A shallow embedding of [runtime/queries/metricsview_aggregation.go]:
    the request struct, [buildMetricsAggregationSQL], [createPivotSQL],
    [Resolve] with its native (DuckDB) and manual (Druid) pivot paths, and
    the cache [Key].  Go strings are byte strings ([string]); Go integers are
    [Z]; a nil-able pointer is an [option]; [error] results are sums.  The
    request is mutated through its pointer receiver, so the functions that
    touch it are written in a state-and-error monad over the request. *)

From Stdlib Require Import String Ascii List ZArith NArith Lia Bool DecimalString.
From Stdlib Require DecimalZ.
Import ListNotations.
Open Scope string_scope.
Open Scope Z_scope.

(** ** Text helpers of the Go standard library *)

(** [append(xs, x)] on a slice. *)
Definition append1 {A : Type} (xs : list A) (x : A) : list A := (xs ++ [x])%list.

(** [fmt.Sprintf("%d", z)]. *)
Definition fmt_d (z : Z) : string := NilZero.string_of_int (Z.to_int z).

(** [strings.Join]. *)
Definition Join (elems : list string) (sep : string) : string := String.concat sep elems.

(** The double-quote character. *)
Definition dq : string := String "034"%char EmptyString.

Definition bytesOf (s : string) : list N := map N_of_ascii (list_ascii_of_string s).

Definition isAsciiSpace (b : N) : bool :=
  (((9 <=? b) && (b <=? 13)) || (b =? 32))%N.

(** The three-byte UTF-8 encodings of the code points [unicode.IsSpace]
    accepts above Latin-1: U+1680, U+2000..U+200A, U+2028, U+2029, U+202F,
    U+205F and U+3000. *)
Definition isSpace3 (b1 b2 b3 : N) : bool :=
  (((b1 =? 0xE1) && (b2 =? 0x9A) && (b3 =? 0x80))
   || ((b1 =? 0xE2) && (b2 =? 0x80)
       && (((0x80 <=? b3) && (b3 <=? 0x8A)) || (b3 =? 0xA8) || (b3 =? 0xA9) || (b3 =? 0xAF)))
   || ((b1 =? 0xE2) && (b2 =? 0x81) && (b3 =? 0x9F))
   || ((b1 =? 0xE3) && (b2 =? 0x80) && (b3 =? 0x80)))%N.

Fixpoint allSpace (bs : list N) : bool :=
  match bs with
  | [] => true
  | b1 :: r1 =>
      if isAsciiSpace b1 then allSpace r1 else
      match r1 with
      | [] => false
      | b2 :: r2 =>
          if ((b1 =? 0xC2) && ((b2 =? 0x85) || (b2 =? 0xA0)))%N then allSpace r2 else
          match r2 with
          | [] => false
          | b3 :: r3 => if isSpace3 b1 b2 b3 then allSpace r3 else false
          end
      end
  end.

(** [strings.TrimSpace(s) == ""]: every rune of [s] is white space. *)
Definition isBlank (s : string) : bool := allSpace (bytesOf s).

Definition isEmpty (s : string) : bool := String.eqb s EmptyString.

(** ** Messages declared outside this file *)

(** The protobuf messages and driver values the file only passes around. *)
Class Messages : Type := {
  TimeRange : Type;                (* runtimev1.TimeRange *)
  Expression : Type;               (* runtimev1.Expression *)
  MetricsViewFilter : Type;        (* runtimev1.MetricsViewFilter *)
  Value : Type;                    (* structpb.Value *)
  any : Type;                      (* a query argument *)
  anyString : string -> any;       (* a Go string stored in an any *)
  StructType : Type;               (* runtimev1.StructType *)
  Struct : Type;                   (* structpb.Struct *)
  SpecMembers : Type;              (* the dimensions and measures a view declares *)
  SpecDimension : Type;            (* runtimev1.MetricsViewSpec_DimensionV2 *)
  SpecDimensionExpression : SpecDimension -> string;
  FieldAccess : Type               (* the rest of a resolved security policy *)
}.

(** [drivers.Dialect]. *)
Inductive Dialect : Type :=
| DialectUnspecified
| DialectDuckDB
| DialectDruid.

Definition Dialect_eqb (a b : Dialect) : bool :=
  match a, b with
  | DialectUnspecified, DialectUnspecified => true
  | DialectDuckDB, DialectDuckDB => true
  | DialectDruid, DialectDruid => true
  | _, _ => false
  end.

(** [runtimev1.TimeGrain] and [runtimev1.BuiltinMeasure] are int32 enums. *)
Definition TimeGrain_TIME_GRAIN_UNSPECIFIED : Z := 0.
Definition BuiltinMeasure_BUILTIN_MEASURE_UNSPECIFIED : Z := 0.
Definition BuiltinMeasure_BUILTIN_MEASURE_COUNT : Z := 1.
Definition BuiltinMeasure_BUILTIN_MEASURE_COUNT_DISTINCT : Z := 2.

Section Model.
Context {MSG : Messages}.

Record MetricsViewAggregationDimension : Type := {
  DimName : string;
  DimTimeGrain : Z;
  DimTimeZone : string
}.

Record MetricsViewAggregationMeasure : Type := {
  MeasureName : string;
  MeasureBuiltinMeasure : Z;
  MeasureBuiltinMeasureArgs : list Value
}.

Record MetricsViewAggregationSort : Type := {
  SortName : string;
  SortDesc : bool
}.

Record MetricsViewSpec : Type := {
  Table : string;
  TimeDimension : string;
  Members : SpecMembers
}.

Record ResolvedMetricsViewSecurity : Type := {
  RowFilter : string;
  Access : FieldAccess
}.

Record MetricsViewAggregationResponse : Type := {
  Schema : StructType;
  Data : list Struct
}.

Record MetricsViewAggregation : Type := {
  MetricsViewName : string;
  Dimensions : list MetricsViewAggregationDimension;
  Measures : list MetricsViewAggregationMeasure;
  Sort : list MetricsViewAggregationSort;
  QTimeRange : option TimeRange;
  Where : option Expression;
  Having : option Expression;
  Priority : Z;
  Limit : option Z;
  Offset : Z;
  MetricsView : MetricsViewSpec;
  ResolvedMVSecurity : option ResolvedMetricsViewSecurity;
  PivotOn : list string;
  Filter : option MetricsViewFilter;
  Result : option MetricsViewAggregationResponse
}.

Definition set_Limit (l : option Z) (q : MetricsViewAggregation) : MetricsViewAggregation :=
  {| MetricsViewName := MetricsViewName q; Dimensions := Dimensions q;
     Measures := Measures q; Sort := Sort q; QTimeRange := QTimeRange q;
     Where := Where q; Having := Having q; Priority := Priority q;
     Limit := l; Offset := Offset q; MetricsView := MetricsView q;
     ResolvedMVSecurity := ResolvedMVSecurity q; PivotOn := PivotOn q;
     Filter := Filter q; Result := Result q |}.

Definition set_Where (w : option Expression) (q : MetricsViewAggregation) : MetricsViewAggregation :=
  {| MetricsViewName := MetricsViewName q; Dimensions := Dimensions q;
     Measures := Measures q; Sort := Sort q; QTimeRange := QTimeRange q;
     Where := w; Having := Having q; Priority := Priority q;
     Limit := Limit q; Offset := Offset q; MetricsView := MetricsView q;
     ResolvedMVSecurity := ResolvedMVSecurity q; PivotOn := PivotOn q;
     Filter := Filter q; Result := Result q |}.

Definition set_Result (r : option MetricsViewAggregationResponse) (q : MetricsViewAggregation)
  : MetricsViewAggregation :=
  {| MetricsViewName := MetricsViewName q; Dimensions := Dimensions q;
     Measures := Measures q; Sort := Sort q; QTimeRange := QTimeRange q;
     Where := Where q; Having := Having q; Priority := Priority q;
     Limit := Limit q; Offset := Offset q; MetricsView := MetricsView q;
     ResolvedMVSecurity := ResolvedMVSecurity q; PivotOn := PivotOn q;
     Filter := Filter q; Result := r |}.

(** Go [error] values: one constructor for each error this file creates,
    carrying what its message is formatted from, and one for the errors of
    the backends and of the helpers declared elsewhere. *)
Inductive error : Type :=
| ErrNoDimensionsOrMeasures            (* no dimensions or measures specified *)
| ErrBuiltinExpectsOneArgument (m : Z) (* builtin measure '%s' expects 1 argument *)
| ErrBuiltinExpectsNonEmptyString (m : Z) (v : Value)
| ErrUnknownBuiltinMeasure (m : Z)     (* unknown builtin measure '%d' *)
| ErrOffsetNotSupportedForPivot        (* offset not supported for pivot queries *)
| ErrExpressionDimensionAsTimeColumn   (* expression dimension not supported as time column *)
| ErrUnsupportedDialect (d : Dialect)  (* unsupported dialect %q *)
| ErrNotAvailableForDialect (d : Dialect) (* not available for dialect '%s' *)
| ErrNoTimeDimension (mv : MetricsViewSpec) (* metrics view '%s' does not have a time dimension *)
| ErrBothFilterAndWhere                (* both filter and where is provided *)
| ErrBuildingQuery (e : error)         (* error building query: %w *)
| ErrPivotCellsExceeded (n : Z)        (* PIVOT cells count exceeded %d *)
| ErrPivotCellsLimitExceeded (n : Z)   (* PIVOT cells count limit exceeded %d *)
| ErrCannotObtainDriverConn            (* cannot obtain driver.Conn *)
| ErrExternal (msg : string).

(** The helpers of package [queries] that live in other files. *)
Class Helpers : Type := {
  safeName : string -> string;
  tempName : string -> string;
  isTimeRangeNil : option TimeRange -> bool;
  convertFilterToExpression : MetricsViewFilter -> option Expression;
  metricsViewDimension : MetricsViewSpec -> string -> error + SpecDimension;
  metricsViewDimensionExpression : SpecDimension -> string;
  metricsViewMeasureExpression : MetricsViewSpec -> string -> error + string;
  (* dimensionSelect(mv, dim, dialect) = (selected expression, unnest clause) *)
  dimensionSelect : MetricsViewSpec -> SpecDimension -> Dialect -> string * string;
  convertToDateTruncSpecifier : Z -> string;
  convertToDruidTimeFloorSpecifier : Z -> string;
  (* timeRangeClause(tr, mv, dialect, timeCol, &args): the clause and the
     argument list it leaves behind the pointer *)
  timeRangeClause : option TimeRange -> MetricsViewSpec -> Dialect -> string -> list any ->
                    error + (string * list any);
  (* buildExpression(mv, expr, nil, dialect) *)
  buildExpression : MetricsViewSpec -> Expression -> Dialect -> error + (string * list any);
  (* [Value.GetStringValue] *)
  GetStringValue : Value -> string
}.

Context {HLP : Helpers}.

(** [var maxPivotCells = 1_000_000] *)
Definition maxPivotCells : Z := 1000000.

(** ** Error and state monads *)

Definition bindE {A B : Type} (c : error + A) (k : A -> error + B) : error + B :=
  match c with
  | inl e => inl e
  | inr a => k a
  end.

(** A computation over a mutable state: what it leaves in the state, and
    its error or value.  A later error does not undo an earlier write. *)
Definition ST (S A : Type) : Type := S -> S * (error + A).

Definition ret {S A : Type} (a : A) : ST S A := fun s => (s, inr a).
Definition fail {S A : Type} (e : error) : ST S A := fun s => (s, inl e).
Definition lift {S A : Type} (c : error + A) : ST S A := fun s => (s, c).
Definition get {S : Type} : ST S S := fun s => (s, inr s).
Definition put {S : Type} (s' : S) : ST S unit := fun _ => (s', inr tt).
Definition modify {S : Type} (f : S -> S) : ST S unit := fun s => (f s, inr tt).
Definition bind {S A B : Type} (c : ST S A) (k : A -> ST S B) : ST S B :=
  fun s => match c s with
           | (s1, inl e) => (s1, inl e)
           | (s1, inr a) => k a s1
           end.

(** [defer d(); body]: [d] runs when the body returns, whatever it returns. *)
Definition defer {S A : Type} (d : S -> S) (body : ST S A) : ST S A :=
  fun s => let '(s1, r) := body s in (d s1, r).

(** The state of the methods of [*MetricsViewAggregation]: the request
    behind the receiver [q]. *)
Definition M (A : Type) : Type := ST MetricsViewAggregation A.

End Model.

Declare Scope go_scope.
Delimit Scope go_scope with go.
Notation "x <- c ;; k" := (bind c (fun x => k))
  (at level 61, c at next level, right associativity) : go_scope.
Notation "' p <- c ;; k" := (bind c (fun x => match x with p => k end))
  (at level 61, p pattern, c at next level, right associativity) : go_scope.
Notation "x <-? c ;; k" := (bindE c (fun x => k))
  (at level 61, c at next level, right associativity) : go_scope.
Notation "' p <-? c ;; k" := (bindE c (fun x => match x with p => k end))
  (at level 61, p pattern, c at next level, right associativity) : go_scope.
Open Scope go_scope.

Section Builder.
Context {MSG : Messages} {HLP : Helpers}.

(** ** The SQL builder *)

(** [q.cols()] *)
Definition cols (q : MetricsViewAggregation) : Z :=
  Z.of_nat (length (Dimensions q)) + Z.of_nat (length (Measures q)).

Definition utcOrUnset (tz : string) : bool := isEmpty tz || String.eqb tz "UTC".

(** [q.buildTimestampExpr(dim, dialect)] *)
Definition buildTimestampExpr (q : MetricsViewAggregation)
    (dim : MetricsViewAggregationDimension) (dialect : Dialect)
  : error + (string * list any) :=
  col <-? (if String.eqb (DimName dim) (TimeDimension (MetricsView q))
           then inr (safeName (DimName dim))
           else
             d <-? metricsViewDimension (MetricsView q) (DimName dim) ;;
             if negb (isEmpty (SpecDimensionExpression d))
             then inl ErrExpressionDimensionAsTimeColumn
             else inr (metricsViewDimensionExpression d)) ;;
  match dialect with
  | DialectDuckDB =>
      if utcOrUnset (DimTimeZone dim)
      then inr ("date_trunc('" ++ convertToDateTruncSpecifier (DimTimeGrain dim) ++ "', "
                  ++ col ++ ")", [])
      else inr ("timezone(?, date_trunc('" ++ convertToDateTruncSpecifier (DimTimeGrain dim)
                  ++ "', timezone(?, " ++ col ++ "::TIMESTAMPTZ)))",
                [anyString (DimTimeZone dim); anyString (DimTimeZone dim)])
  | DialectDruid =>
      if utcOrUnset (DimTimeZone dim)
      then inr ("date_trunc('" ++ convertToDateTruncSpecifier (DimTimeGrain dim) ++ "', "
                  ++ col ++ ")", [])
      else inr ("time_floor(" ++ col ++ ", '"
                  ++ convertToDruidTimeFloorSpecifier (DimTimeGrain dim)
                  ++ "', null, CAST(? AS VARCHAR)))",
                [anyString (DimTimeZone dim)])
  | DialectUnspecified => inl (ErrUnsupportedDialect dialect)
  end.

(** The locals the dimension loop of [buildMetricsAggregationSQL] updates. *)
Record DimensionLoop : Type := {
  selectCols : list string;
  groupCols : list string;
  unnestClauses : list string;
  loopArgs : list any
}.

(** [for _, d := range q.Dimensions { ... }] *)
Fixpoint dimensionLoop (q : MetricsViewAggregation) (mv : MetricsViewSpec) (dialect : Dialect)
    (ds : list MetricsViewAggregationDimension) (st : DimensionLoop)
  : error + DimensionLoop :=
  match ds with
  | [] => inr st
  | d :: rest =>
      if DimTimeGrain d =? TimeGrain_TIME_GRAIN_UNSPECIFIED then
        dim <-? metricsViewDimension mv (DimName d) ;;
        let '(dimSel, unnestClause) := dimensionSelect mv dim dialect in
        let selectCols' := append1 (selectCols st) dimSel in
        dimensionLoop q mv dialect rest
          {| selectCols := selectCols';
             unnestClauses := if negb (isEmpty unnestClause)
                              then append1 (unnestClauses st) unnestClause
                              else unnestClauses st;
             groupCols := append1 (groupCols st) (fmt_d (Z.of_nat (length selectCols')));
             loopArgs := loopArgs st |}
      else
        '(expr, exprArgs) <-? buildTimestampExpr q d dialect ;;
        let selectCols' := append1 (selectCols st) (expr ++ " as " ++ safeName (DimName d)) in
        dimensionLoop q mv dialect rest
          {| selectCols := selectCols';
             unnestClauses := unnestClauses st;
             groupCols := append1 (groupCols st) (fmt_d (Z.of_nat (length selectCols')));
             loopArgs := (loopArgs st ++ exprArgs)%list |}
  end.

(** [for _, m := range q.Measures { ... }] *)
Fixpoint measureLoop (mv : MetricsViewSpec) (ms : list MetricsViewAggregationMeasure)
    (selectCols : list string) : error + list string :=
  match ms with
  | [] => inr selectCols
  | m :: rest =>
      let sn := safeName (MeasureName m) in
      if MeasureBuiltinMeasure m =? BuiltinMeasure_BUILTIN_MEASURE_UNSPECIFIED then
        expr <-? metricsViewMeasureExpression mv (MeasureName m) ;;
        measureLoop mv rest (append1 selectCols (expr ++ " as " ++ sn))
      else if MeasureBuiltinMeasure m =? BuiltinMeasure_BUILTIN_MEASURE_COUNT then
        measureLoop mv rest (append1 selectCols ("COUNT(*) as " ++ sn))
      else if MeasureBuiltinMeasure m =? BuiltinMeasure_BUILTIN_MEASURE_COUNT_DISTINCT then
        match MeasureBuiltinMeasureArgs m with
        | [v] =>
            let arg := GetStringValue v in
            if isEmpty arg
            then inl (ErrBuiltinExpectsNonEmptyString (MeasureBuiltinMeasure m) v)
            else measureLoop mv rest
                   (append1 selectCols ("COUNT(DISTINCT " ++ safeName arg ++ ") as " ++ sn))
        | _ => inl (ErrBuiltinExpectsOneArgument (MeasureBuiltinMeasure m))
        end
      else inl (ErrUnknownBuiltinMeasure (MeasureBuiltinMeasure m))
  end.

(** [groupClause] *)
Definition groupClauseOf (groupCols : list string) : string :=
  if (0 <? length groupCols)%nat then "GROUP BY " ++ Join groupCols ", " else EmptyString.

(** The accumulated [whereClause] before the sentinel is put in front, and
    the argument list after it (lines 478 to 499). *)
Definition whereFragments (q : MetricsViewAggregation) (mv : MetricsViewSpec)
    (dialect : Dialect) (policy : option ResolvedMetricsViewSecurity) (args : list any)
  : error + (string * list any) :=
  '(whereClause, args) <-?
     (if negb (isEmpty (TimeDimension mv)) then
        let timeCol := safeName (TimeDimension mv) in
        '(clause, args') <-? timeRangeClause (QTimeRange q) mv dialect timeCol args ;;
        inr (EmptyString ++ clause, args')
      else inr (EmptyString, args)) ;;
  '(whereClause, args) <-?
     match Where q with
     | Some w =>
         '(clause, clauseArgs) <-? buildExpression mv w dialect ;;
         inr (if negb (isBlank clause) then whereClause ++ " AND " ++ clause else whereClause,
              (args ++ clauseArgs)%list)
     | None => inr (whereClause, args)
     end ;;
  inr (match policy with
       | Some p => if negb (isEmpty (RowFilter p))
                   then whereClause ++ " AND (" ++ RowFilter p ++ ")"
                   else whereClause
       | None => whereClause
       end, args).

(** [if len(whereClause) > 0 { whereClause = "WHERE 1=1" + whereClause }] *)
Definition withSentinel (whereClause : string) : string :=
  if (0 <? String.length whereClause)%nat then "WHERE 1=1" ++ whereClause else whereClause.

(** [havingClause] and the argument list after it (lines 504 to 516). *)
Definition havingClauseOf (q : MetricsViewAggregation) (mv : MetricsViewSpec)
    (dialect : Dialect) (args : list any) : error + (string * list any) :=
  match Having q with
  | Some h =>
      '(havingClause, havingClauseArgs) <-? buildExpression mv h dialect ;;
      inr (if negb (isBlank havingClause) then "HAVING " ++ havingClause else havingClause,
           (args ++ havingClauseArgs)%list)
  | None => inr (EmptyString, args)
  end.

(** One iteration of the sort loop of [buildMetricsAggregationSQL]. *)
Definition sortCriterion (dialect : Dialect) (s : MetricsViewAggregationSort) : string :=
  let c := safeName (SortName s) in
  let c := if SortDesc s then c ++ " DESC" else c in
  if Dialect_eqb dialect DialectDuckDB then c ++ " NULLS LAST" else c.

Definition orderClauseOf (sortingCriteria : list string) : string :=
  if (0 <? length sortingCriteria)%nat
  then "ORDER BY " ++ Join sortingCriteria ", " else EmptyString.

(** The limit step shared by [buildMetricsAggregationSQL] (lines 534 to 540)
    and [createPivotSQL] (lines 325 to 331): writes through [q.Limit]. *)
Definition limitClauseStep : M string :=
  q <- get ;;
  match Limit q with
  | Some l =>
      _ <- (if l =? 0 then put (set_Limit (Some 100) q) else ret tt) ;;
      q <- get ;;
      match Limit q with
      | Some l => ret ("LIMIT " ++ fmt_d l)
      | None => ret EmptyString
      end
  | None => ret EmptyString
  end.

(** [fmt.Sprintf("SELECT %[1]s FROM %[2]s %[3]s %[4]s %[5]s %[6]s %[7]s %[8]s", ...)] *)
Definition sprintfSelect (selectCols : list string) (table : string)
    (unnestClauses : list string)
    (whereClause groupClause havingClause orderClause limitClause : string) : string :=
  "SELECT " ++ Join selectCols ", " ++ " FROM " ++ table ++ " "
    ++ Join unnestClauses EmptyString ++ " " ++ whereClause ++ " " ++ groupClause ++ " "
    ++ havingClause ++ " " ++ orderClause ++ " " ++ limitClause.

(** [q.buildMetricsAggregationSQL(mv, dialect, policy)] *)
Definition buildMetricsAggregationSQL (mv : MetricsViewSpec) (dialect : Dialect)
    (policy : option ResolvedMetricsViewSecurity) : M (string * list any) :=
  q <- get ;;
  if (length (Dimensions q) =? 0)%nat && (length (Measures q) =? 0)%nat
  then fail ErrNoDimensionsOrMeasures else
  st <- lift (dimensionLoop q mv dialect (Dimensions q)
                {| selectCols := []; groupCols := []; unnestClauses := []; loopArgs := [] |}) ;;
  selectCols <- lift (measureLoop mv (Measures q) (selectCols st)) ;;
  let groupClause := groupClauseOf (groupCols st) in
  '(whereClause, args) <- lift (whereFragments q mv dialect policy (loopArgs st)) ;;
  let whereClause := withSentinel whereClause in
  '(havingClause, args) <- lift (havingClauseOf q mv dialect args) ;;
  let orderClause := orderClauseOf (map (sortCriterion dialect) (Sort q)) in
  limitClause <- limitClauseStep ;;
  q <- get ;;
  if (0 <? length (PivotOn q))%nat then
    let l := Z.quot maxPivotCells (cols q) in
    let limitClause := "LIMIT " ++ fmt_d (l + 1) in
    if negb (Offset q =? 0) then fail ErrOffsetNotSupportedForPivot else
    ret (sprintfSelect selectCols (safeName (Table mv)) (unnestClauses st)
           whereClause groupClause havingClause orderClause limitClause, args)
  else
    ret (sprintfSelect selectCols (safeName (Table mv)) (unnestClauses st)
           whereClause groupClause havingClause orderClause limitClause
           ++ " OFFSET " ++ fmt_d (Offset q), args).

(** One iteration of the sort loop of [createPivotSQL]. *)
Definition pivotSortCriterion (s : MetricsViewAggregationSort) : string :=
  let c := safeName (SortName s) in
  let c := if SortDesc s then c ++ " DESC" else c in
  c ++ " NULLS LAST".

(** [q.createPivotSQL(temporaryTableName)] *)
Definition createPivotSQL (temporaryTableName : string) : M string :=
  q <- get ;;
  let measureCols :=
    map (fun m => let sn := safeName (MeasureName m) in "LAST(" ++ sn ++ ") as " ++ sn)
        (Measures q) in
  let orderClause := orderClauseOf (map pivotSortCriterion (Sort q)) in
  limitClause <- limitClauseStep ;;
  q <- get ;;
  ret ("PIVOT " ++ temporaryTableName ++ " ON " ++ Join (PivotOn q) ", " ++ " USING "
         ++ Join measureCols ", " ++ " " ++ orderClause ++ " " ++ limitClause
         ++ " OFFSET " ++ fmt_d (Offset q)).

End Builder.

(** ** The cache key *)

(** [encoding/json] on the members of the request that are messages of other
    packages. *)
Class Encoders {MSG : Messages} : Type := {
  jsonString : string -> string;
  jsonStrings : list string -> string;
  jsonDimensions : list MetricsViewAggregationDimension -> string;
  jsonMeasures : list MetricsViewAggregationMeasure -> string;
  jsonSort : list MetricsViewAggregationSort -> string;
  jsonTimeRange : TimeRange -> string;
  jsonExpression : Expression -> string;
  jsonSecurity : option ResolvedMetricsViewSecurity -> string;
  jsonFilter : MetricsViewFilter -> string
}.

Section Cache.
Context {MSG : Messages} {ENC : Encoders}.

(** One member of a JSON object. *)
Definition jsonField (name value : string) : string := dq ++ name ++ dq ++ ":" ++ value.

(** A member tagged [omitempty]: left out when [empty]. *)
Definition omitempty (empty : bool) (name value : string) : list string :=
  if empty then [] else [jsonField name value].

Definition isNil {A : Type} (p : option A) : bool :=
  match p with Some _ => false | None => true end.

Definition orEmpty {A : Type} (f : A -> string) (p : option A) : string :=
  match p with Some a => f a | None => EmptyString end.

(** The members [json.Marshal(q)] writes, in the order of the struct's
    fields and by their tags; [MetricsView] and [Result] are tagged ["-"]. *)
Definition jsonMembers (q : MetricsViewAggregation) : list string :=
  (omitempty (isEmpty (MetricsViewName q)) "metrics_view" (jsonString (MetricsViewName q))
   ++ omitempty (length (Dimensions q) =? 0)%nat "dimensions" (jsonDimensions (Dimensions q))
   ++ omitempty (length (Measures q) =? 0)%nat "measures" (jsonMeasures (Measures q))
   ++ omitempty (length (Sort q) =? 0)%nat "sort" (jsonSort (Sort q))
   ++ omitempty (isNil (QTimeRange q)) "time_range" (orEmpty jsonTimeRange (QTimeRange q))
   ++ omitempty (isNil (Where q)) "where" (orEmpty jsonExpression (Where q))
   ++ omitempty (isNil (Having q)) "having" (orEmpty jsonExpression (Having q))
   ++ omitempty (Priority q =? 0) "priority" (fmt_d (Priority q))
   ++ omitempty (isNil (Limit q)) "limit" (orEmpty fmt_d (Limit q))
   ++ omitempty (Offset q =? 0) "offset" (fmt_d (Offset q))
   ++ [jsonField "security" (jsonSecurity (ResolvedMVSecurity q))]
   ++ omitempty (length (PivotOn q) =? 0)%nat "pivot_on" (jsonStrings (PivotOn q))
   ++ omitempty (isNil (Filter q)) "filter" (orEmpty jsonFilter (Filter q)))%list.

(** [q.Key()] *)
Definition Key (q : MetricsViewAggregation) : string :=
  "MetricsViewAggregation:" ++ "{" ++ Join (jsonMembers q) "," ++ "}".

End Cache.

(** ** Execution: the backends and what [Resolve] does to them *)

Section Execution.
Context {MSG : Messages} {HLP : Helpers}.

(** What happens to one row of the base result on the manual path: its
    [rows.Scan] and its [appender.AppendRowArray]. *)
Record RowEvent : Type := {
  scanError : option error;
  appendError : option error
}.

(** The [*drivers.Result] of the base query on the manual path:
    [rows.Next()] is true once for each element of [rowEvents]. *)
Record Rows : Type := {
  rowsSchema : StructType;
  rowsColumns : error + list string;
  rowEvents : list RowEvent;
  rowsErr : option error
}.

(** The [*sqlx.Rows] of the pivot query on the manual path. *)
Record PivotRows (RowMap : Type) : Type := {
  mapScans : list (error + RowMap);
  pivotRowsErr : option error
}.
Arguments mapScans {RowMap} _.
Arguments pivotRowsErr {RowMap} _.

(** What the runtime, the OLAP driver and the embedded pivot engine answer. *)
Record Backend : Type := {
  RowMap : Type;
  (* rt.OLAP(ctx, instanceID), and olap.Dialect() of the handle *)
  OLAP : error + Dialect;
  (* olapQuery(ctx, olap, priority, sql, args) *)
  olapQueryResult : string -> list any -> error + (StructType * list Struct);
  (* olap.WithConnection: acquiring the connection *)
  WithConnection : option error;
  (* olap.Exec of a statement *)
  Exec : string -> list any -> option error;
  (* olap.Execute of the count probe: the error, or no row, or the Scan of the row *)
  ExecuteCount : string -> error + option (error + Z);
  (* olap.Execute of the base query on the manual path *)
  Execute : string -> list any -> error + Rows;
  (* sqlx.Connect("duckdb", "") *)
  Connect : option error;
  (* duckdbolap.CreateTableQuery(schema, name) *)
  CreateTableQuery : StructType -> string -> error + string;
  (* pivotDB.ExecContext of a statement *)
  ExecContext : string -> option error;
  (* pivotDB.Conn(ctx) *)
  Conn : option error;
  (* conn.(driver.Conn) *)
  isDriverConn : bool;
  (* duckdb.NewAppenderFromConn *)
  NewAppenderFromConn : option error;
  (* pivotDB.QueryxContext of the pivot statement *)
  QueryxContext : string -> error + PivotRows RowMap;
  (* duckdbolap.RowsToSchema(pivotRows) *)
  RowsToSchema : error + StructType;
  (* pbutil.ToStruct(rowMap, schema) *)
  ToStruct : RowMap -> StructType -> error + Struct
}.

(** What a run leaves behind in the backends. *)
Record World : Type := {
  olapStatements : list string;   (* sent to the OLAP backend, oldest first *)
  olapTempTables : list string;   (* temporary tables of the OLAP session *)
  pivotStatements : list string;  (* sent to the embedded pivot engine *)
  pivotTempTables : list string;  (* temporary tables of the embedded engine *)
  rowsFetched : Z;                (* rows taken from the base result *)
  rowsAppended : Z;               (* rows handed to the appender *)
  flushes : Z;                    (* appender.Flush() calls *)
  closed : list string            (* resources released, oldest first *)
}.

Definition emptyWorld : World :=
  {| olapStatements := []; olapTempTables := []; pivotStatements := [];
     pivotTempTables := []; rowsFetched := 0; rowsAppended := 0; flushes := 0;
     closed := [] |}.

Definition sendOlap (sql : string) (w : World) : World :=
  {| olapStatements := append1 (olapStatements w) sql; olapTempTables := olapTempTables w;
     pivotStatements := pivotStatements w; pivotTempTables := pivotTempTables w;
     rowsFetched := rowsFetched w; rowsAppended := rowsAppended w; flushes := flushes w;
     closed := closed w |}.

Definition setOlapTables (ts : list string) (w : World) : World :=
  {| olapStatements := olapStatements w; olapTempTables := ts;
     pivotStatements := pivotStatements w; pivotTempTables := pivotTempTables w;
     rowsFetched := rowsFetched w; rowsAppended := rowsAppended w; flushes := flushes w;
     closed := closed w |}.

Definition sendPivot (sql : string) (w : World) : World :=
  {| olapStatements := olapStatements w; olapTempTables := olapTempTables w;
     pivotStatements := append1 (pivotStatements w) sql; pivotTempTables := pivotTempTables w;
     rowsFetched := rowsFetched w; rowsAppended := rowsAppended w; flushes := flushes w;
     closed := closed w |}.

Definition setPivotTables (ts : list string) (w : World) : World :=
  {| olapStatements := olapStatements w; olapTempTables := olapTempTables w;
     pivotStatements := pivotStatements w; pivotTempTables := ts;
     rowsFetched := rowsFetched w; rowsAppended := rowsAppended w; flushes := flushes w;
     closed := closed w |}.

Definition fetchRow (w : World) : World :=
  {| olapStatements := olapStatements w; olapTempTables := olapTempTables w;
     pivotStatements := pivotStatements w; pivotTempTables := pivotTempTables w;
     rowsFetched := rowsFetched w + 1; rowsAppended := rowsAppended w; flushes := flushes w;
     closed := closed w |}.

Definition appendRow (w : World) : World :=
  {| olapStatements := olapStatements w; olapTempTables := olapTempTables w;
     pivotStatements := pivotStatements w; pivotTempTables := pivotTempTables w;
     rowsFetched := rowsFetched w; rowsAppended := rowsAppended w + 1; flushes := flushes w;
     closed := closed w |}.

Definition flush (w : World) : World :=
  {| olapStatements := olapStatements w; olapTempTables := olapTempTables w;
     pivotStatements := pivotStatements w; pivotTempTables := pivotTempTables w;
     rowsFetched := rowsFetched w; rowsAppended := rowsAppended w; flushes := flushes w + 1;
     closed := closed w |}.

Definition close (resource : string) (w : World) : World :=
  {| olapStatements := olapStatements w; olapTempTables := olapTempTables w;
     pivotStatements := pivotStatements w; pivotTempTables := pivotTempTables w;
     rowsFetched := rowsFetched w; rowsAppended := rowsAppended w; flushes := flushes w;
     closed := append1 (closed w) resource |}.

Definition removeTable (name : string) (ts : list string) : list string :=
  filter (fun t => negb (String.eqb t name)) ts.

(** The state of [Resolve]: the request and the backends. *)
Definition R (A : Type) : Type := ST (MetricsViewAggregation * World) A.

Definition onRequest {A : Type} (c : M A) : R A :=
  fun '(q, w) => let '(q1, r) := c q in ((q1, w), r).

Definition onWorld (f : World -> World) : R unit :=
  fun '(q, w) => ((q, f w), inr tt).

Definition inWorld (f : World -> World) (s : MetricsViewAggregation * World)
  : MetricsViewAggregation * World := (fst s, f (snd s)).

(** A nil error continues, another one is returned. *)
Definition check {S : Type} (err : option error) : ST S unit :=
  match err with
  | Some e => fail e
  | None => ret tt
  end.

Definition getRequest : R MetricsViewAggregation := fun s => (s, inr (fst s)).

(** [fmt.Errorf("...: %w", err)] around a call. *)
Definition wrapError {S A : Type} (f : error -> error) (c : ST S A) : ST S A :=
  fun s => match c s with
           | (s1, inl e) => (s1, inl (f e))
           | (s1, inr a) => (s1, inr a)
           end.

(** [q.Result = &runtimev1.MetricsViewAggregationResponse{Schema: schema, Data: data}] *)
Definition setResult (schema : StructType) (data : list Struct) : R unit :=
  onRequest (modify (set_Result (Some {| Schema := schema; Data := data |}))).

(** The loop of [toData]. *)
Fixpoint toDataLoop (B : Backend) (scans : list (error + RowMap B)) (schema : StructType)
    (data : list Struct) : error + list Struct :=
  match scans with
  | [] => inr data
  | scan :: rest =>
      rowMap <-? scan ;;
      rowStruct <-? ToStruct B rowMap schema ;;
      toDataLoop B rest schema (append1 data rowStruct)
  end.

(** [toData(rows, schema)] *)
Definition toData (B : Backend) (rows : PivotRows (RowMap B)) (schema : StructType)
  : error + list Struct :=
  data <-? toDataLoop B (mapScans rows) schema [] ;;
  match pivotRowsErr rows with
  | Some e => inl e
  | None => inr data
  end.

(** [batchSize := 10000] *)
Definition batchSize : Z := 10000.

(** [for rows.Next() { ... }; appender.Flush()] in [pivotDruid], from the
    value [count] has when the loop is entered. *)
Fixpoint appendLoop (maxCount : Z) (events : list RowEvent) (count : Z) : ST World unit :=
  match events with
  | [] => modify flush
  | ev :: rest =>
      _ <- modify fetchRow ;;
      _ <- check (scanError ev) ;;
      _ <- check (appendError ev) ;;
      _ <- modify appendRow ;;
      let count := count + 1 in
      if count >? maxCount then fail (ErrPivotCellsLimitExceeded maxPivotCells) else
      if count >=? batchSize
      then _ <- modify flush ;; appendLoop maxCount rest 0
      else appendLoop maxCount rest count
  end.

(** The function [pivotDruid] hands to [conn.Raw]. *)
Definition appendRows (B : Backend) (q : MetricsViewAggregation) (rows : Rows)
  : ST World unit :=
  if negb (isDriverConn B) then fail ErrCannotObtainDriverConn else
  _ <- check (NewAppenderFromConn B) ;;
  defer (close "appender")
    (columns <- lift (rowsColumns rows) ;;
     let count := 0 in
     let maxCount := Z.quot maxPivotCells (cols q) in
     appendLoop maxCount (rowEvents rows) count).

Definition onBackends {A : Type} (c : ST World A) : R A :=
  fun '(q, w) => let '(w1, r) := c w in ((q, w1), r).

Definition dropStatement (temporaryTableName : string) : string :=
  "DROP TABLE " ++ dq ++ temporaryTableName ++ dq.

(** The deferred drop of [pivotDruid]; its error is discarded. *)
Definition pivotDrop (B : Backend) (temporaryTableName : string) (w : World) : World :=
  let w := sendPivot (dropStatement temporaryTableName) w in
  match ExecContext B (dropStatement temporaryTableName) with
  | None => setPivotTables (removeTable temporaryTableName (pivotTempTables w)) w
  | Some _ => w
  end.

(** [q.pivotDruid(ctx, rows)] *)
Definition pivotDruid (B : Backend) (rows : Rows) : R unit :=
  _ <- check (Connect B) ;;
  defer (inWorld (close "pivotDB"))
    (let temporaryTableName := tempName "_for_pivot_" in
     createTableSQL <- lift (CreateTableQuery B (rowsSchema rows) temporaryTableName) ;;
     _ <- onWorld (sendPivot createTableSQL) ;;
     _ <- check (ExecContext B createTableSQL) ;;
     _ <- onWorld (fun w => setPivotTables (append1 (pivotTempTables w) temporaryTableName) w) ;;
     defer (inWorld (pivotDrop B temporaryTableName))
       match Conn B with
       | Some _ => ret tt
       | None =>
           defer (inWorld (close "conn"))
             (q <- getRequest ;;
              _ <- onBackends (appendRows B q rows) ;;
              _ <- check (rowsErr rows) ;;
              pivotSQL <- onRequest (createPivotSQL temporaryTableName) ;;
              _ <- onWorld (sendPivot pivotSQL) ;;
              pivotRows <- lift (QueryxContext B pivotSQL) ;;
              defer (inWorld (close "pivotRows"))
                (schema <- lift (RowsToSchema B) ;;
                 data <- lift (toData B pivotRows schema) ;;
                 setResult schema data))
       end).

(** The deferred drop of the native path; its error is discarded. *)
Definition olapDrop (B : Backend) (temporaryTableName : string) (w : World) : World :=
  let w := sendOlap (dropStatement temporaryTableName) w in
  match Exec B (dropStatement temporaryTableName) [] with
  | None => setOlapTables (removeTable temporaryTableName (olapTempTables w)) w
  | Some _ => w
  end.

(** The function [Resolve] hands to [olap.WithConnection] on the native path. *)
Definition pivotNative (B : Backend) (priority : Z) (sqlString : string) (args : list any)
  : R unit :=
  let temporaryTableName := tempName "_for_pivot_" in
  let create := "CREATE TEMPORARY TABLE " ++ temporaryTableName ++ " AS " ++ sqlString in
  _ <- onWorld (sendOlap create) ;;
  _ <- check (Exec B create args) ;;
  _ <- onWorld (fun w => setOlapTables (append1 (olapTempTables w) temporaryTableName) w) ;;
  let probe := "SELECT COUNT(*) FROM " ++ temporaryTableName in
  _ <- onWorld (sendOlap probe) ;;
  res <- lift (ExecuteCount B probe) ;;
  q <- getRequest ;;
  _ <- match res with
       | Some scan =>
           match scan with
           | inl e => _ <- onWorld (close "res") ;; fail e
           | inr count =>
               if count >? Z.quot maxPivotCells (cols q)
               then _ <- onWorld (close "res") ;; fail (ErrPivotCellsExceeded maxPivotCells)
               else ret tt
           end
       | None => ret tt
       end ;;
  _ <- onWorld (close "res") ;;
  defer (inWorld (olapDrop B temporaryTableName))
    (pivotSQL <- onRequest (createPivotSQL temporaryTableName) ;;
     _ <- onWorld (sendOlap pivotSQL) ;;
     '(schema, data) <- lift (olapQueryResult B pivotSQL []) ;;
     setResult schema data).

(** [q.Resolve(ctx, rt, instanceID, priority)]; [inr tt] is the nil error. *)
Definition Resolve (B : Backend) (priority : Z) : R unit :=
  dialect <- lift (OLAP B) ;;
  defer (inWorld (close "olap"))
    (if negb (Dialect_eqb dialect DialectDuckDB) && negb (Dialect_eqb dialect DialectDruid)
     then fail (ErrNotAvailableForDialect dialect) else
     q <- getRequest ;;
     if isEmpty (TimeDimension (MetricsView q)) && negb (isTimeRangeNil (QTimeRange q))
     then fail (ErrNoTimeDimension (MetricsView q)) else
     _ <- match Filter q with
          | Some f =>
              match Where q with
              | Some _ => fail ErrBothFilterAndWhere
              | None => onRequest (modify (set_Where (convertFilterToExpression f)))
              end
          | None => ret tt
          end ;;
     q <- getRequest ;;
     '(sqlString, args) <-
        wrapError ErrBuildingQuery
          (onRequest (buildMetricsAggregationSQL (MetricsView q) dialect
                        (ResolvedMVSecurity q))) ;;
     q <- getRequest ;;
     if (length (PivotOn q) =? 0)%nat then
       _ <- onWorld (sendOlap sqlString) ;;
       '(schema, data) <- lift (olapQueryResult B sqlString args) ;;
       setResult schema data
     else if Dialect_eqb dialect DialectDuckDB then
       _ <- check (WithConnection B) ;;
       pivotNative B priority sqlString args
     else
       _ <- onWorld (sendOlap sqlString) ;;
       match Execute B sqlString args with
       | inl _ => ret tt
       | inr rows => defer (inWorld (close "rows")) (pivotDruid B rows)
       end).

End Execution.

(** ** The cached result and the export *)

(** What [Export] and the result cache use from other files and packages. *)
Class Exporters {MSG : Messages} : Type := {
  MetricsViewColumn : Type;        (* runtimev1.MetricsViewColumn *)
  structTypeToMetricsViewColumn : StructType -> list MetricsViewColumn;
  (* writeCSV(meta, data, w), writeXLSX, writeParquet: the error they return *)
  writeCSV : list MetricsViewColumn -> list Struct -> option error;
  writeXLSX : list MetricsViewColumn -> list Struct -> option error;
  writeParquet : list MetricsViewColumn -> list Struct -> option error;
  sizeProtoMessage : option MetricsViewAggregationResponse -> Z;
  ResourceKindMetricsView : string
}.

(** [runtimev1.ExportFormat] is an int32 enum. *)
Definition ExportFormat_EXPORT_FORMAT_UNSPECIFIED : Z := 0.
Definition ExportFormat_EXPORT_FORMAT_CSV : Z := 1.
Definition ExportFormat_EXPORT_FORMAT_XLSX : Z := 2.
Definition ExportFormat_EXPORT_FORMAT_PARQUET : Z := 3.

Section Exporting.
Context {MSG : Messages} {HLP : Helpers} {EXP : Exporters}.

(** [runtimev1.ResourceName] *)
Record ResourceName : Type := {
  Kind : string;
  Name : string
}.

(** [q.Deps()] *)
Definition Deps (q : MetricsViewAggregation) : list ResourceName :=
  [{| Kind := ResourceKindMetricsView; Name := MetricsViewName q |}].



(** The errors [UnmarshalResult] and [Export] create, and the ones they
    pass on. *)
Inductive exportError : Type :=
| ErrMismatchedUnmarshalInput     (* MetricsViewAggregation: mismatched unmarshal input *)
| ErrUnspecifiedFormat            (* unspecified format *)
| ErrFrom (e : error).



(** [strings.ReplaceAll] of every double quote of [s] by an underscore. *)
Fixpoint replaceQuotes (s : string) : string :=
  match s with
  | EmptyString => EmptyString
  | String c rest =>
      String (if Ascii.eqb c "034"%char then "_"%char else c) (replaceQuotes rest)
  end.

(** [runtime.ExportOptions] *)
Record ExportOptions : Type := {
  OptFormat : Z;
  OptPriority : Z;
  PreWriteHook : option (string -> option error)
}.

(** What [Export] does besides resolving: the hook it calls and the writer
    it runs. *)
Inductive ExportEvent : Type :=
| HookCalled (filename : string)
| Written (format : Z) (meta : list MetricsViewColumn) (data : list Struct).

(** How a call ends: it returns an error (or nil), or it panics on a nil
    pointer. *)
Inductive Ending : Type :=
| Returns (err : option exportError)
| Panics.

(** The [filename] of [Export], from the request [Resolve] left. *)
Definition exportFilename (q : MetricsViewAggregation) : string :=
  let filename := replaceQuotes (Table (MetricsView q)) in
  if negb (isTimeRangeNil (QTimeRange q)) || negb (isNil (Where q)) || negb (isNil (Having q))
  then filename ++ "_filtered"
  else filename.

Definition returnErr (err : option error) : Ending :=
  Returns (option_map ErrFrom err).

(** [q.Export(ctx, rt, instanceID, w, opts)]: the request and the backends
    it leaves, the hook and writer calls it made, and how it ends. *)
Definition Export (B : Backend) (opts : ExportOptions) (s : MetricsViewAggregation * World)
  : (MetricsViewAggregation * World) * list ExportEvent * Ending :=
  match Resolve B (OptPriority opts) s with
  | (s1, inl err) => (s1, [], Returns (Some (ErrFrom err)))
  | (s1, inr _) =>
      let q := fst s1 in
      let filename := exportFilename q in
      match Result q with
      | None => (s1, [], Panics)
      | Some res =>
          let meta := structTypeToMetricsViewColumn (Schema res) in
          let '(events, hookErr) :=
            match PreWriteHook opts with
            | Some hook => ([HookCalled filename], hook filename)
            | None => ([], None)
            end in
          match hookErr with
          | Some err => (s1, events, Returns (Some (ErrFrom err)))
          | None =>
              if OptFormat opts =? ExportFormat_EXPORT_FORMAT_UNSPECIFIED then
                (s1, events, Returns (Some ErrUnspecifiedFormat))
              else if OptFormat opts =? ExportFormat_EXPORT_FORMAT_CSV then
                (s1, append1 events (Written (OptFormat opts) meta (Data res)),
                 returnErr (writeCSV meta (Data res)))
              else if OptFormat opts =? ExportFormat_EXPORT_FORMAT_XLSX then
                (s1, append1 events (Written (OptFormat opts) meta (Data res)),
                 returnErr (writeXLSX meta (Data res)))
              else if OptFormat opts =? ExportFormat_EXPORT_FORMAT_PARQUET then
                (s1, append1 events (Written (OptFormat opts) meta (Data res)),
                 returnErr (writeParquet meta (Data res)))
              else (s1, events, Returns None)
          end
      end
  end.

End Exporting.

(** * Words of the specification *)

Section Vocabulary.
Context {MSG : Messages} {HLP : Helpers}.


(** The request after the limit step: an explicit zero limit became 100. *)
Definition normalized (q : MetricsViewAggregation) : MetricsViewAggregation :=
  match Limit q with
  | Some 0 => set_Limit (Some 100) q
  | _ => q
  end.

(** The text of a compiled query from its clauses: the pivot form has no
    OFFSET, the plain form ends with the request's offset. *)
Definition compiledText (q : MetricsViewAggregation) (selectCols : list string)
    (table : string) (unnestClauses : list string)
    (whereClause groupClause havingClause orderClause limitClause : string) : string :=
  if (0 <? length (PivotOn q))%nat
  then sprintfSelect selectCols table unnestClauses whereClause groupClause havingClause
         orderClause limitClause
  else sprintfSelect selectCols table unnestClauses whereClause groupClause havingClause
         orderClause limitClause ++ " OFFSET " ++ fmt_d (Offset q).

(** A limit clause for [l]. *)
Definition limitText (l : option Z) : string :=
  match l with
  | Some n => "LIMIT " ++ fmt_d n
  | None => EmptyString
  end.

(** The limit clause of the compiled query. *)
Definition compiledLimit (q : MetricsViewAggregation) : string :=
  if (0 <? length (PivotOn q))%nat
  then limitText (Some (Z.quot maxPivotCells (cols q) + 1))
  else limitText (Limit (normalized q)).

(** The initial locals of the dimension loop. *)
Definition noColumns : DimensionLoop :=
  {| selectCols := []; groupCols := []; unnestClauses := []; loopArgs := [] |}.

(** A sort term: the quoted name, [DESC] for a descending sort, then the
    null-ordering suffix of the dialect. *)
Definition sortTerm (nullOrdering : string) (s : MetricsViewAggregationSort) : string :=
  safeName (SortName s) ++ (if SortDesc s then " DESC" else EmptyString) ++ nullOrdering.






(** A row whose [Scan] and [AppendRowArray] both succeed. *)
Definition scansAndAppends (ev : RowEvent) : Prop :=
  scanError ev = None /\ appendError ev = None.

End Vocabulary.

Section BuilderVocabulary.
Context {MSG : Messages} {HLP : Helpers}.

(** The SELECT entry of a requested dimension: the selected expression of
    a plain dimension, or the time bucket of a time dimension under the
    quoted name of the dimension. *)
Inductive isDimensionEntry (q : MetricsViewAggregation) (mv : MetricsViewSpec)
    (dialect : Dialect) (d : MetricsViewAggregationDimension) (entry : string) : Prop :=
| plainDimensionEntry (dim : SpecDimension) :
    DimTimeGrain d = TimeGrain_TIME_GRAIN_UNSPECIFIED ->
    metricsViewDimension mv (DimName d) = inr dim ->
    entry = fst (dimensionSelect mv dim dialect) ->
    isDimensionEntry q mv dialect d entry
| timeDimensionEntry (expr : string) (args : list any) :
    DimTimeGrain d <> TimeGrain_TIME_GRAIN_UNSPECIFIED ->
    buildTimestampExpr q d dialect = inr (expr, args) ->
    entry = expr ++ " as " ++ safeName (DimName d) ->
    isDimensionEntry q mv dialect d entry.

(** The SELECT entry of a requested measure. *)
Inductive isMeasureEntry (mv : MetricsViewSpec) (m : MetricsViewAggregationMeasure)
    (entry : string) : Prop :=
| viewMeasureEntry (expr : string) :
    MeasureBuiltinMeasure m = BuiltinMeasure_BUILTIN_MEASURE_UNSPECIFIED ->
    metricsViewMeasureExpression mv (MeasureName m) = inr expr ->
    entry = expr ++ " as " ++ safeName (MeasureName m) ->
    isMeasureEntry mv m entry
| countEntry :
    MeasureBuiltinMeasure m = BuiltinMeasure_BUILTIN_MEASURE_COUNT ->
    entry = "COUNT(*) as " ++ safeName (MeasureName m) ->
    isMeasureEntry mv m entry
| countDistinctEntry (v : Value) :
    MeasureBuiltinMeasure m = BuiltinMeasure_BUILTIN_MEASURE_COUNT_DISTINCT ->
    MeasureBuiltinMeasureArgs m = [v] ->
    GetStringValue v <> EmptyString ->
    entry = "COUNT(DISTINCT " ++ safeName (GetStringValue v) ++ ") as "
            ++ safeName (MeasureName m) ->
    isMeasureEntry mv m entry.

(** A builtin measure the builder has no SELECT entry for: an unknown
    builtin, or a distinct count without exactly one non-empty string
    argument. *)
Definition malformedMeasure (m : MetricsViewAggregationMeasure) : Prop :=
  (MeasureBuiltinMeasure m <> BuiltinMeasure_BUILTIN_MEASURE_UNSPECIFIED
   /\ MeasureBuiltinMeasure m <> BuiltinMeasure_BUILTIN_MEASURE_COUNT
   /\ MeasureBuiltinMeasure m <> BuiltinMeasure_BUILTIN_MEASURE_COUNT_DISTINCT)
  \/ (MeasureBuiltinMeasure m = BuiltinMeasure_BUILTIN_MEASURE_COUNT_DISTINCT
      /\ forall v, MeasureBuiltinMeasureArgs m = [v] -> GetStringValue v = EmptyString).

(** The arguments of the time buckets of the requested dimensions, in the
    order of the dimensions. *)
Definition timeBucketArgs (q : MetricsViewAggregation) (dialect : Dialect)
    (ds : list MetricsViewAggregationDimension) : list any :=
  flat_map (fun d =>
              if DimTimeGrain d =? TimeGrain_TIME_GRAIN_UNSPECIFIED then []
              else match buildTimestampExpr q d dialect with
                   | inr (_, args) => args
                   | inl _ => []
                   end) ds.

(** The compiled HAVING expression of a request and its arguments: what
    [buildExpression] returns for [q.Having], nothing when there is none. *)
Definition isHavingFragment (q : MetricsViewAggregation) (mv : MetricsViewSpec)
    (dialect : Dialect) (fragment : string) (args : list any) : Prop :=
  match Having q with
  | Some h => buildExpression mv h dialect = inr (fragment, args)
  | None => fragment = EmptyString /\ args = []
  end.

(** The compiled WHERE expression of a request with its arguments. *)
Definition isWhereFragmentWith (q : MetricsViewAggregation) (mv : MetricsViewSpec)
    (dialect : Dialect) (fragment : string) (args : list any) : Prop :=
  match Where q with
  | Some w => buildExpression mv w dialect = inr (fragment, args)
  | None => fragment = EmptyString /\ args = []
  end.

(** The HAVING clause for a compiled fragment: a blank fragment is left as
    it is. *)
Definition havingText (fragment : string) : string :=
  if isBlank fragment then fragment else "HAVING " ++ fragment.

(** How often the character [c] occurs in [s]. *)
Fixpoint countChar (c : ascii) (s : string) : Z :=
  match s with
  | EmptyString => 0
  | String x rest => (if Ascii.eqb x c then 1 else 0) + countChar c rest
  end.

(** Opening minus closing parentheses of [s]. *)
Definition parenDepth (s : string) : Z := countChar "("%char s - countChar ")"%char s.

(** The column a time bucket is taken of: the quoted name of the view's
    time dimension, or the column of the dimension of that name. *)
Definition isTimeColumn (q : MetricsViewAggregation)
    (dim : MetricsViewAggregationDimension) (col : string) : Prop :=
  if String.eqb (DimName dim) (TimeDimension (MetricsView q))
  then col = safeName (DimName dim)
  else exists d, metricsViewDimension (MetricsView q) (DimName dim) = inr d
                 /\ SpecDimensionExpression d = EmptyString
                 /\ col = metricsViewDimensionExpression d.

(** The pivot aggregation of a measure. *)
Definition lastOf (m : MetricsViewAggregationMeasure) : string :=
  "LAST(" ++ safeName (MeasureName m) ++ ") as " ++ safeName (MeasureName m).

(** The specifier a time bucket is written with. *)
Definition bucketSpecifier (dialect : Dialect) (dim : MetricsViewAggregationDimension)
  : string :=
  if Dialect_eqb dialect DialectDruid && negb (utcOrUnset (DimTimeZone dim))
  then convertToDruidTimeFloorSpecifier (DimTimeGrain dim)
  else convertToDateTruncSpecifier (DimTimeGrain dim).

End BuilderVocabulary.

Section ExecutionVocabulary.
Context {MSG : Messages} {HLP : Helpers}.

(** The request once [Resolve] has moved a legacy filter into [Where]. *)
Definition withLegacyFilter (q : MetricsViewAggregation) : MetricsViewAggregation :=
  match Filter q, Where q with
  | Some f, None => set_Where (convertFilterToExpression f) q
  | _, _ => q
  end.

(** The request [Resolve] builds the query of, once its checks have passed:
    the legacy filter moved into [Where]. The checks: the handle is of
    DuckDB or Druid, a time range needs a time dimension, and a legacy filter
    excludes a WHERE expression. *)
Definition admitted (B : Backend) (dialect : Dialect) (q : MetricsViewAggregation) : Prop :=
  OLAP B = inr dialect
  /\ dialect <> DialectUnspecified
  /\ isEmpty (TimeDimension (MetricsView q)) && negb (isTimeRangeNil (QTimeRange q)) = false
  /\ (Filter q = None \/ Where q = None).

(** The statement that materializes the compiled query on the native path. *)
Definition createTableAs (sqlString : string) : string :=
  "CREATE TEMPORARY TABLE " ++ tempName "_for_pivot_" ++ " AS " ++ sqlString.

(** A row of the pivot result that scans and converts to [row]. *)
Definition convertsTo (B : Backend) (schema : StructType) (scan : error + RowMap B)
    (row : Struct) : Prop :=
  exists rowMap, scan = inr rowMap /\ ToStruct B rowMap schema = inr row.

(** The statements and tables of both backends. *)
Definition sameBackends (w w' : World) : Prop :=
  olapStatements w' = olapStatements w /\ olapTempTables w' = olapTempTables w
  /\ pivotStatements w' = pivotStatements w /\ pivotTempTables w' = pivotTempTables w.

(** How far the request can have come when a step returns: untouched,
    with its limit written back, or with a result stored as well. *)
Inductive left_as (q : MetricsViewAggregation) : error + unit -> MetricsViewAggregation -> Prop :=
| left_untouched r : left_as q r q
| left_normalized r : left_as q r (normalized q)
| left_resolved res : left_as q (inr tt) (set_Result (Some res) (normalized q)).

(** How far the request can have come when [Resolve] returns. *)
Inductive resolved_as (q : MetricsViewAggregation)
  : error + unit -> MetricsViewAggregation -> Prop :=
| stopped_at_checks e : resolved_as q (inl e) q
| stopped_at_build e : resolved_as q (inl e) (withLegacyFilter q)
| stopped_after_build r : resolved_as q r (normalized (withLegacyFilter q))
| resolved_with res :
    resolved_as q (inr tt) (set_Result (Some res) (normalized (withLegacyFilter q))).

End ExecutionVocabulary.

Section ExportVocabulary.
Context {MSG : Messages} {HLP : Helpers} {EXP : Exporters}.

(** What the hook of the options does before a writer runs: nothing without
    a hook, else one call with the file name. *)
Definition hookEvents (opts : ExportOptions) (q : MetricsViewAggregation)
  : list ExportEvent :=
  match PreWriteHook opts with
  | Some _ => [HookCalled (exportFilename q)]
  | None => []
  end.

(** The hook of the options, if there is one, returns nil for the file name. *)
Definition hookPasses (opts : ExportOptions) (q : MetricsViewAggregation) : Prop :=
  match PreWriteHook opts with
  | Some hook => hook (exportFilename q) = None
  | None => True
  end.

End ExportVocabulary.

(** * A concrete view, concrete helpers and concrete backends *)

Module Example.

Definition messages : Messages :=
  {| TimeRange := string;
     Expression := string;
     MetricsViewFilter := string;
     Value := string;
     any := string;
     anyString := fun s => s;
     StructType := list string;
     Struct := list string;
     SpecMembers := list string;
     SpecDimension := string;
     SpecDimensionExpression := fun _ => EmptyString;
     FieldAccess := unit |}.

#[local] Existing Instance messages.

(** Helpers for a view whose dimensions are plain columns and whose
    measures are sums over the column of the same name. *)
Definition helpers : Helpers :=
  {| safeName := fun name => dq ++ name ++ dq;
     tempName := fun pfx => pfx ++ "0001";
     isTimeRangeNil := fun tr => match tr with Some _ => false | None => true end;
     convertFilterToExpression := fun f => Some f;
     metricsViewDimension := fun mv name =>
       if existsb (String.eqb name) (Members mv) then inr name
       else inl (ErrExternal "dimension not found");
     metricsViewDimensionExpression := fun d => dq ++ d ++ dq;
     metricsViewMeasureExpression := fun mv name => inr ("SUM(" ++ dq ++ name ++ dq ++ ")");
     dimensionSelect := fun mv d dialect => (dq ++ d ++ dq, EmptyString);
     convertToDateTruncSpecifier := fun g => "day";
     convertToDruidTimeFloorSpecifier := fun g => "P1D";
     timeRangeClause := fun tr mv dialect timeCol args =>
       match tr with
       | Some start => inr (" AND " ++ timeCol ++ " >= ?", append1 args start)
       | None => inr (EmptyString, args)
       end;
     buildExpression := fun mv e dialect => inr (e, []);
     GetStringValue := fun v => v |}.

#[local] Existing Instance helpers.

Definition encoders : Encoders :=
  {| jsonString := fun s => dq ++ s ++ dq;
     jsonStrings := fun l => "[" ++ Join (map (fun s => dq ++ s ++ dq) l) "," ++ "]";
     jsonDimensions := fun l => "[" ++ Join (map DimName l) "," ++ "]";
     jsonMeasures := fun l => "[" ++ Join (map MeasureName l) "," ++ "]";
     jsonSort := fun l => "[" ++ Join (map SortName l) "," ++ "]";
     jsonTimeRange := fun tr => dq ++ tr ++ dq;
     jsonExpression := fun e => dq ++ e ++ dq;
     jsonSecurity := fun p => match p with
                              | Some s => dq ++ RowFilter s ++ dq
                              | None => "null"
                              end;
     jsonFilter := fun f => dq ++ f ++ dq |}.

Definition adBids : MetricsViewSpec :=
  {| Table := "ad_bids"; TimeDimension := "timestamp";
     Members := ["publisher"; "domain"; "year"] |}.

Definition dimension (name : string) : MetricsViewAggregationDimension :=
  {| DimName := name; DimTimeGrain := 0; DimTimeZone := EmptyString |}.

Definition measure (name : string) : MetricsViewAggregationMeasure :=
  {| MeasureName := name; MeasureBuiltinMeasure := 0; MeasureBuiltinMeasureArgs := [] |}.

(** Domains and years with one measure, sorted by domain, descending. *)
Definition request (limit : option Z) (offset : Z) (pivotOn : list string)
  : MetricsViewAggregation :=
  {| MetricsViewName := "ad_bids_metrics";
     Dimensions := [dimension "domain"; dimension "year"];
     Measures := [measure "impressions"];
     Sort := [{| SortName := "domain"; SortDesc := true |}];
     QTimeRange := None;
     Where := Some "domain IN ('msn.com')";
     Having := None;
     Priority := 0;
     Limit := limit;
     Offset := offset;
     MetricsView := adBids;
     ResolvedMVSecurity := Some {| RowFilter := "publisher = 'Yahoo'"; Access := tt |};
     PivotOn := pivotOn;
     Filter := None;
     Result := None |}.

Definition policy : option ResolvedMetricsViewSecurity :=
  Some {| RowFilter := "publisher = 'Yahoo'"; Access := tt |}.

Definition goodRow : RowEvent := {| scanError := None; appendError := None |}.

(** A base result of [n] rows that all scan and append. *)
Definition baseRows (n : Z) : Rows :=
  {| rowsSchema := ["domain"; "year"; "impressions"];
     rowsColumns := inr ["domain"; "year"; "impressions"];
     rowEvents := Z.iter n (cons goodRow) [];
     rowsErr := None |}.

(** Backends that answer every call without an error, except for what
    [execute] and [conn] say; the base query yields [rowCount] rows. *)
Definition backend (dialect : Dialect) (rowCount : Z) (execute conn : option error)
  : Backend :=
  {| RowMap := list string;
     OLAP := inr dialect;
     olapQueryResult := fun sql args => inr (["domain"; "2023"], [["msn.com"; "7"]]);
     WithConnection := None;
     Exec := fun sql args => None;
     ExecuteCount := fun sql => inr (Some (inr rowCount));
     Execute := fun sql args => match execute with
                                | Some e => inl e
                                | None => inr (baseRows rowCount)
                                end;
     Connect := None;
     CreateTableQuery := fun schema name =>
       inr ("CREATE TEMPORARY TABLE " ++ name ++ " (" ++ Join schema ", " ++ ")");
     ExecContext := fun sql => None;
     Conn := conn;
     isDriverConn := true;
     NewAppenderFromConn := None;
     QueryxContext := fun sql => inr {| mapScans := [inr ["msn.com"; "7"]];
                                        pivotRowsErr := None |};
     RowsToSchema := inr ["domain"; "2023"];
     ToStruct := fun rowMap schema => inr rowMap |}.

End Example.

(** ** Further concrete requests *)

Module MoreExamples.
Import Example.
#[local] Existing Instance messages.
#[local] Existing Instance helpers.

Definition exporters : Exporters :=
  {| MetricsViewColumn := string;
     structTypeToMetricsViewColumn := fun schema => schema;
     writeCSV := fun meta data => None;
     writeXLSX := fun meta data => None;
     writeParquet := fun meta data => Some (ErrExternal "parquet: disk full");
     sizeProtoMessage := fun res => match res with
                                    | Some r => Z.of_nat (length (Data r))
                                    | None => 0
                                    end;
     ResourceKindMetricsView := "rill.runtime.v1.MetricsView" |}.

(** The view's time dimension in daily buckets of a time zone. *)
Definition dailyIn (timeZone : string) : MetricsViewAggregationDimension :=
  {| DimName := "timestamp"; DimTimeGrain := 1; DimTimeZone := timeZone |}.

(** Daily impressions in Copenhagen time, with a HAVING expression. *)
Definition dailyRequest : MetricsViewAggregation :=
  {| MetricsViewName := "ad_bids_metrics";
     Dimensions := [dailyIn "Europe/Copenhagen"; dimension "domain"];
     Measures := [measure "impressions";
                  {| MeasureName := "publishers"; MeasureBuiltinMeasure := 2;
                     MeasureBuiltinMeasureArgs := ["publisher"] |}];
     Sort := [];
     QTimeRange := Some "2023-01-01";
     Where := Some "domain = ?";
     Having := Some "impressions > ?";
     Priority := 0;
     Limit := None;
     Offset := 0;
     MetricsView := adBids;
     ResolvedMVSecurity := None;
     PivotOn := [];
     Filter := None;
     Result := None |}.

(** A request with a builtin measure that does not exist. *)
Definition unknownBuiltin : MetricsViewAggregationMeasure :=
  {| MeasureName := "median"; MeasureBuiltinMeasure := 7; MeasureBuiltinMeasureArgs := [] |}.

Definition malformedRequest : MetricsViewAggregation :=
  {| MetricsViewName := "ad_bids_metrics";
     Dimensions := [dimension "domain"];
     Measures := [measure "impressions"; unknownBuiltin];
     Sort := [];
     QTimeRange := None;
     Where := None;
     Having := None;
     Priority := 0;
     Limit := None;
     Offset := 0;
     MetricsView := adBids;
     ResolvedMVSecurity := None;
     PivotOn := [];
     Filter := None;
     Result := None |}.

(** A pivot request of 101 columns: its budget is 9900 rows. *)
Definition wideRequest : MetricsViewAggregation :=
  {| MetricsViewName := "ad_bids_metrics";
     Dimensions := repeat (dimension "domain") 100;
     Measures := [measure "impressions"];
     Sort := [];
     QTimeRange := None;
     Where := None;
     Having := None;
     Priority := 0;
     Limit := None;
     Offset := 0;
     MetricsView := adBids;
     ResolvedMVSecurity := None;
     PivotOn := ["domain"];
     Filter := None;
     Result := None |}.

(** A base result of [n] rows that all scan and append. *)
Definition manyRows (n : nat) : Rows :=
  {| rowsSchema := ["domain"; "impressions"];
     rowsColumns := inr ["domain"; "impressions"];
     rowEvents := repeat goodRow n;
     rowsErr := None |}.

(** A request with a legacy filter and no WHERE expression. *)
Definition legacyRequest : MetricsViewAggregation :=
  {| MetricsViewName := "ad_bids_metrics";
     Dimensions := [dimension "domain"];
     Measures := [measure "impressions"];
     Sort := [];
     QTimeRange := None;
     Where := None;
     Having := None;
     Priority := 0;
     Limit := Some 0;
     Offset := 0;
     MetricsView := adBids;
     ResolvedMVSecurity := None;
     PivotOn := [];
     Filter := Some "domain = 'msn.com'";
     Result := None |}.

Definition csvWithHook : ExportOptions :=
  {| OptFormat := ExportFormat_EXPORT_FORMAT_CSV; OptPriority := 0;
     PreWriteHook := Some (fun filename => None) |}.

Definition formatWithHook (format : Z) : ExportOptions :=
  {| OptFormat := format; OptPriority := 0; PreWriteHook := Some (fun filename => None) |}.

End MoreExamples.

(** * Properties *)

Section BuilderProperties.
Context {MSG : Messages} {HLP : Helpers}.

(** ** Strings *)

Lemma append_assoc (a b c : string) : (a ++ b) ++ c = a ++ b ++ c.
Proof. induction a as [|x a IH]; cbn; [reflexivity | now rewrite IH]. Qed.


Lemma append_inv_l (a b c : string) : a ++ b = a ++ c -> b = c.
Proof. induction a as [|x a IH]; cbn; intros H; [exact H | injection H; auto]. Qed.


Lemma isEmpty_true (s : string) : isEmpty s = true <-> s = EmptyString.
Proof. unfold isEmpty. apply String.eqb_eq. Qed.

Lemma append_is_empty (a b : string) : isEmpty (a ++ b) = isEmpty a && isEmpty b.
Proof. destruct a; cbn; [destruct b|]; reflexivity. Qed.

(** ** The limit step *)

Lemma limitClauseStep_run (q : MetricsViewAggregation) :
  limitClauseStep q =
  (normalized q,
   inr (limitText (Limit (normalized q)))).
Proof.
  unfold limitClauseStep, limitText, normalized, bind, get, put, ret.
  destruct (Limit q) as [l|] eqn:EL; cbn; [|rewrite EL; reflexivity].
  destruct l; cbn; try rewrite EL; reflexivity.
Qed.

Lemma normalized_fields (q : MetricsViewAggregation) :
  PivotOn (normalized q) = PivotOn q /\ Offset (normalized q) = Offset q
  /\ cols (normalized q) = cols q.
Proof.
  unfold normalized. destruct (Limit q) as [[| |]|]; repeat split; reflexivity.
Qed.

(** ** What a successful build went through *)

Lemma build_ok_inv mv dialect policy q q' sql args :
  buildMetricsAggregationSQL mv dialect policy q = (q', inr (sql, args)) ->
  exists st sels wf a1 hc,
    ((length (Dimensions q) =? 0)%nat && (length (Measures q) =? 0)%nat = false)
    /\ dimensionLoop q mv dialect (Dimensions q) noColumns = inr st
    /\ measureLoop mv (Measures q) (selectCols st) = inr sels
    /\ whereFragments q mv dialect policy (loopArgs st) = inr (wf, a1)
    /\ havingClauseOf q mv dialect a1 = inr (hc, args)
    /\ q' = normalized q
    /\ ((0 <? length (PivotOn q))%nat = true -> Offset q = 0)
    /\ sql = compiledText q sels (safeName (Table mv)) (unnestClauses st)
              (withSentinel wf) (groupClauseOf (groupCols st)) hc
              (orderClauseOf (map (sortCriterion dialect) (Sort q))) (compiledLimit q).
Proof.
  intros H. unfold buildMetricsAggregationSQL in H.
  unfold bind at 1 in H. unfold get at 1 in H.
  destruct ((length (Dimensions q) =? 0)%nat && (length (Measures q) =? 0)%nat) eqn:E0;
    [discriminate|].
  unfold bind at 1, lift at 1 in H. fold noColumns in H.
  destruct (dimensionLoop q mv dialect (Dimensions q) noColumns) as [e|st] eqn:E1;
    [discriminate|].
  unfold bind at 1, lift at 1 in H.
  destruct (measureLoop mv (Measures q) (selectCols st)) as [e|sels] eqn:E2; [discriminate|].
  unfold bind at 1, lift at 1 in H.
  destruct (whereFragments q mv dialect policy (loopArgs st)) as [e|[wf a1]] eqn:E3;
    [discriminate|].
  unfold bind at 1, lift at 1 in H.
  destruct (havingClauseOf q mv dialect a1) as [e|[hc a2]] eqn:E4; [discriminate|].
  unfold bind at 1 in H. rewrite limitClauseStep_run in H.
  unfold bind at 1, get at 1 in H.
  destruct (normalized_fields q) as (HP & HO & HC).
  rewrite HP, HO, HC in H.
  exists st, sels, wf, a1, hc. unfold compiledText, compiledLimit, limitText.
  destruct (0 <? length (PivotOn q))%nat eqn:EP.
  - destruct (Z.eqb_spec (Offset q) 0) as [Hoff|Hoff]; cbn in H; [|discriminate].
    unfold ret in H. inversion H; subst. repeat split; auto.
  - unfold ret in H. inversion H; subst. repeat split; auto. discriminate.
Qed.


(** A compiled request has a column: the divisions by [q.cols()] that
    follow a build in [Resolve] never divide by zero. *)
Lemma build_ok_cols_positive mv dialect policy q q' sql args :
  buildMetricsAggregationSQL mv dialect policy q = (q', inr (sql, args)) ->
  0 < cols q /\ 0 < cols q'.
Proof.
  intros H. apply build_ok_inv in H.
  destruct H as (_ & _ & _ & _ & _ & E0 & _ & _ & _ & _ & Hq & _).
  destruct (normalized_fields q) as (_ & _ & HC). subst q'. rewrite HC.
  unfold cols. destruct (Dimensions q); destruct (Measures q); cbn in *; try discriminate; lia.
Qed.

(** ** The loops over dimensions and measures *)




(** ** ORDER BY *)




(** ** LIMIT *)


Lemma pivot_requested (q : MetricsViewAggregation) :
  PivotOn q <> [] -> (0 <? length (PivotOn q))%nat = true.
Proof. destruct (PivotOn q); [congruence | reflexivity]. Qed.


(** ** GROUP BY *)


(** ** WHERE *)




(** ** What the builders leave in the request *)

Lemma createPivotSQL_request temporaryTableName q :
  fst (createPivotSQL temporaryTableName q) = normalized q.
Proof.
  unfold createPivotSQL. unfold bind at 1, get at 1. unfold bind at 1.
  rewrite limitClauseStep_run. reflexivity.
Qed.

Lemma build_request mv dialect policy q :
  fst (buildMetricsAggregationSQL mv dialect policy q) = q
  \/ fst (buildMetricsAggregationSQL mv dialect policy q) = normalized q.
Proof.
  destruct (buildMetricsAggregationSQL mv dialect policy q) as [q1 r] eqn:E. cbn [fst].
  unfold buildMetricsAggregationSQL in E.
  unfold bind at 1 in E. unfold get at 1 in E.
  destruct ((length (Dimensions q) =? 0)%nat && (length (Measures q) =? 0)%nat);
    [inversion E; now left|].
  unfold bind at 1, lift at 1 in E.
  destruct (dimensionLoop q mv dialect (Dimensions q) _) as [e|st]; [inversion E; now left|].
  unfold bind at 1, lift at 1 in E.
  destruct (measureLoop mv (Measures q) (selectCols st)) as [e|sels];
    [inversion E; now left|].
  unfold bind at 1, lift at 1 in E.
  destruct (whereFragments q mv dialect policy (loopArgs st)) as [e|[wf a1]];
    [inversion E; now left|].
  unfold bind at 1, lift at 1 in E.
  destruct (havingClauseOf q mv dialect a1) as [e|[hc a2]]; [inversion E; now left|].
  unfold bind at 1 in E. rewrite limitClauseStep_run in E.
  unfold bind at 1, get at 1 in E. right.
  destruct (0 <? length (PivotOn (normalized q)))%nat; [|now inversion E].
  destruct (negb (Offset (normalized q) =? 0)); now inversion E.
Qed.

Lemma normalized_zero q : Limit q = Some 0 -> normalized q = set_Limit (Some 100) q.
Proof. unfold normalized. now intros ->. Qed.

Lemma normalized_other q : Limit q <> Some 0 -> normalized q = q.
Proof. unfold normalized. destruct (Limit q) as [[| |]|]; congruence. Qed.

(** ** Offset and pivot *)

Lemma build_rejects_pivot_offset mv dialect policy q :
  PivotOn q <> [] -> Offset q <> 0 ->
  exists e, snd (buildMetricsAggregationSQL mv dialect policy q) = inl e.
Proof.
  intros HP HO. apply pivot_requested in HP.
  destruct (buildMetricsAggregationSQL mv dialect policy q) as [q1 [e|[sql args]]] eqn:E;
    [now exists e|].
  apply build_ok_inv in E.
  destruct E as (_ & _ & _ & _ & _ & _ & _ & _ & _ & _ & _ & Hoff & _).
  elim HO. auto.
Qed.

End BuilderProperties.

Section RequestEffects.
Context {MSG : Messages} {HLP : Helpers} {ENC : Encoders}.

(** ** The cache key after a build *)

Lemma Join_cons_cons (x y : string) (l : list string) (sep : string) :
  Join (x :: y :: l) sep = x ++ sep ++ Join (y :: l) sep.
Proof. reflexivity. Qed.

Lemma Join_prefix_cancel (sep e : string) (pre t1 t2 : list string) :
  t1 <> [] -> t2 <> [] ->
  Join (pre ++ t1) sep ++ e = Join (pre ++ t2) sep ++ e ->
  Join t1 sep ++ e = Join t2 sep ++ e.
Proof.
  intros H1 H2. induction pre as [|p pre IH]; cbn [app]; [auto|].
  intros H. apply IH.
  destruct (pre ++ t1)%list as [|a l1] eqn:E1;
    [apply app_eq_nil in E1; destruct E1; contradiction|].
  destruct (pre ++ t2)%list as [|b l2] eqn:E2;
    [apply app_eq_nil in E2; destruct E2; contradiction|].
  rewrite !Join_cons_cons, !append_assoc in H.
  apply append_inv_l in H. apply append_inv_l in H. exact H.
Qed.

Lemma jsonMembers_limit (q : MetricsViewAggregation) :
  exists pre post,
    post <> []
    /\ forall l, jsonMembers (set_Limit l q)
                 = (pre ++ omitempty (isNil l) "limit" (orEmpty fmt_d l) ++ post)%list.
Proof.
  exists
    (omitempty (isEmpty (MetricsViewName q)) "metrics_view" (jsonString (MetricsViewName q))
     ++ omitempty (length (Dimensions q) =? 0)%nat "dimensions" (jsonDimensions (Dimensions q))
     ++ omitempty (length (Measures q) =? 0)%nat "measures" (jsonMeasures (Measures q))
     ++ omitempty (length (Sort q) =? 0)%nat "sort" (jsonSort (Sort q))
     ++ omitempty (isNil (QTimeRange q)) "time_range" (orEmpty jsonTimeRange (QTimeRange q))
     ++ omitempty (isNil (Where q)) "where" (orEmpty jsonExpression (Where q))
     ++ omitempty (isNil (Having q)) "having" (orEmpty jsonExpression (Having q))
     ++ omitempty (Priority q =? 0) "priority" (fmt_d (Priority q)))%list,
    (omitempty (Offset q =? 0) "offset" (fmt_d (Offset q))
     ++ [jsonField "security" (jsonSecurity (ResolvedMVSecurity q))]
     ++ omitempty (length (PivotOn q) =? 0)%nat "pivot_on" (jsonStrings (PivotOn q))
     ++ omitempty (isNil (Filter q)) "filter" (orEmpty jsonFilter (Filter q)))%list.
  split.
  - destruct (Offset q =? 0); discriminate.
  - intros l. unfold jsonMembers. cbn [set_Limit MetricsViewName Dimensions Measures Sort
      QTimeRange Where Having Priority Limit Offset ResolvedMVSecurity PivotOn Filter].
    rewrite <- !app_assoc. reflexivity.
Qed.

Lemma set_Limit_same (q : MetricsViewAggregation) : set_Limit (Limit q) q = q.
Proof. destruct q; reflexivity. Qed.

Lemma Key_zero_limit (q : MetricsViewAggregation) :
  Limit q = Some 0 -> Key (set_Limit (Some 100) q) <> Key q.
Proof.
  intros HL H. rewrite <- (set_Limit_same q) in H at 2. rewrite HL in H.
  unfold Key in H. destruct (jsonMembers_limit q) as (pre & post & Hpost & Hm).
  rewrite !Hm in H. apply append_inv_l in H. apply append_inv_l in H.
  apply Join_prefix_cancel in H.
  - destruct post as [|p post]; [contradiction|]. cbn in H. discriminate.
  - discriminate.
  - discriminate.
Qed.

(** C10: [createPivotSQL] always, and [buildMetricsAggregationSQL] whenever
    it compiles a query, leave the request with an explicit limit of 0
    overwritten by 100 and every other field as it was; a build that fails
    leaves the request either untouched or changed in that way only; and
    the overwritten request has another cache key. *)
Theorem builders_overwrite_zero_limit mv dialect policy temporaryTableName q :
  fst (createPivotSQL temporaryTableName q) = normalized q
  /\ (forall q' sql args,
        buildMetricsAggregationSQL mv dialect policy q = (q', inr (sql, args)) ->
        q' = normalized q)
  /\ (fst (buildMetricsAggregationSQL mv dialect policy q) = q
      \/ fst (buildMetricsAggregationSQL mv dialect policy q) = normalized q)
  /\ (Limit q = Some 0 ->
      normalized q = set_Limit (Some 100) q /\ Key (normalized q) <> Key q)
  /\ (Limit q <> Some 0 -> normalized q = q).
Proof.
  split; [apply createPivotSQL_request|].
  split.
  { intros q' sql args H. apply build_ok_inv in H.
    now destruct H as (_ & _ & _ & _ & _ & _ & _ & _ & _ & _ & Hq & _). }
  split; [apply build_request|].
  split.
  - intros HL. rewrite (normalized_zero q HL). split; [reflexivity|].
    now apply Key_zero_limit.
  - apply normalized_other.
Qed.

End RequestEffects.

Section ExecutionProperties.
Context {MSG : Messages} {HLP : Helpers}.

(** ** Validation before execution *)

Lemma build_keeps_result mv dialect policy q :
  Result (fst (buildMetricsAggregationSQL mv dialect policy q)) = Result q.
Proof.
  destruct (build_request mv dialect policy q) as [-> | ->]; [reflexivity|].
  unfold normalized. destruct (Limit q) as [[| |]|]; reflexivity.
Qed.

(** The part of [Resolve] from the build on stops at a build error. *)
Lemma resolve_build_fails {A : Type} (k : string * list any -> R A) mv dialect policy q w :
  PivotOn q <> [] -> Offset q <> 0 ->
  exists q' e,
    bind (wrapError ErrBuildingQuery
            (onRequest (buildMetricsAggregationSQL mv dialect policy))) k (q, w)
    = ((q', w), inl e)
    /\ Result q' = Result q.
Proof.
  intros HP HO. unfold bind, wrapError, onRequest.
  destruct (build_rejects_pivot_offset mv dialect policy q HP HO) as (e & He).
  pose proof (build_keeps_result mv dialect policy q) as HR.
  destruct (buildMetricsAggregationSQL mv dialect policy q) as [q1 r].
  cbn in He, HR. subst r. exists q1, (ErrBuildingQuery e). split; [reflexivity | exact HR].
Qed.

(** C5: a request with a pivot axis and a nonzero offset is rejected: the
    builder returns an error and no query, and [Resolve] returns an error
    without sending any statement to a backend and without a result. *)
Theorem pivot_offset_rejected mv dialect policy q :
  PivotOn q <> [] -> Offset q <> 0 ->
  (exists e, snd (buildMetricsAggregationSQL mv dialect policy q) = inl e)
  /\ forall (B : Backend) priority w,
       exists q' w' e,
         Resolve B priority (q, w) = ((q', w'), inl e)
         /\ olapStatements w' = olapStatements w
         /\ pivotStatements w' = pivotStatements w
         /\ Result q' = Result q.
Proof.
  intros HP HO. split; [now apply build_rejects_pivot_offset|].
  intros B priority w. unfold Resolve.
  unfold bind at 1, lift at 1. destruct (OLAP B) as [e|d].
  { exists q, w, e. repeat split; reflexivity. }
  unfold defer.
  destruct (negb (Dialect_eqb d DialectDuckDB) && negb (Dialect_eqb d DialectDruid)).
  { exists q, (close "olap" w), (ErrNotAvailableForDialect d). repeat split; reflexivity. }
  unfold bind at 1, getRequest at 1. cbn [fst].
  destruct (isEmpty (TimeDimension (MetricsView q)) && negb (isTimeRangeNil (QTimeRange q))).
  { exists q, (close "olap" w), (ErrNoTimeDimension (MetricsView q)).
    repeat split; reflexivity. }
  unfold bind at 1.
  destruct (Filter q) as [f|] eqn:EF; [destruct (Where q) as [x|] eqn:EW|].
  - exists q, (close "olap" w), ErrBothFilterAndWhere. repeat split; reflexivity.
  - unfold onRequest at 1, modify at 1. unfold bind at 1, getRequest at 1. cbn [fst].
    match goal with
    | |- context [bind (wrapError _ (onRequest (buildMetricsAggregationSQL ?m ?di ?po))) ?k ?s] =>
        destruct (resolve_build_fails k m di po
                    (set_Where (convertFilterToExpression f) q) w HP HO)
          as (q' & e & Hrun & HR)
    end.
    rewrite Hrun. exists q', (close "olap" w), e. repeat split; try reflexivity. exact HR.
  - unfold ret at 1. unfold bind at 1, getRequest at 1. cbn [fst].
    match goal with
    | |- context [bind (wrapError _ (onRequest (buildMetricsAggregationSQL ?m ?di ?po))) ?k ?s] =>
        destruct (resolve_build_fails k m di po q w HP HO) as (q' & e & Hrun & HR)
    end.
    rewrite Hrun. exists q', (close "olap" w), e. repeat split; try reflexivity. exact HR.
Qed.

(** ** The append loop of the manual path *)

(** When the budget [maxCount] is at least a batch, [count] is reset by the
    flush before it can exceed the budget: the loop takes every row and
    returns no error, however many rows there are. *)
Lemma appendLoop_budget_never_checked maxCount events :
  batchSize <= maxCount -> Forall scansAndAppends events ->
  forall count w, 0 <= count < batchSize ->
  exists w',
    appendLoop maxCount events count w = (w', inr tt)
    /\ rowsFetched w' = rowsFetched w + Z.of_nat (length events)
    /\ rowsAppended w' = rowsAppended w + Z.of_nat (length events).
Proof.
  intros Hmax Hall. induction Hall as [|ev events [Hs Ha] _ IH]; intros count w Hc.
  - exists (flush w). cbn. repeat split; lia.
  - cbn [appendLoop]. unfold bind, modify, check. rewrite Hs, Ha. unfold ret.
    destruct (Z.gtb_spec (count + 1) maxCount) as [Hgt|_]; [lia|].
    destruct (Z.geb_spec (count + 1) batchSize) as [Hge|Hlt].
    + destruct (IH 0 (flush (appendRow (fetchRow w)))) as (w' & Hrun & Hf & Hp);
        [unfold batchSize; lia|].
      exists w'. rewrite Hrun, Hf, Hp. cbn [length rowsFetched rowsAppended flush appendRow
        fetchRow]. repeat split; lia.
    + destruct (IH (count + 1) (appendRow (fetchRow w))) as (w' & Hrun & Hf & Hp); [lia|].
      exists w'. rewrite Hrun, Hf, Hp. cbn [length rowsFetched rowsAppended appendRow
        fetchRow]. repeat split; lia.
Qed.

(** When the budget is smaller than a batch the loop stops at the first row
    over the budget. *)
Lemma appendLoop_small_budget maxCount events :
  maxCount < batchSize -> Forall scansAndAppends events ->
  forall count w, 0 <= count <= maxCount ->
  maxCount - count < Z.of_nat (length events) ->
  exists w',
    appendLoop maxCount events count w = (w', inl (ErrPivotCellsLimitExceeded maxPivotCells))
    /\ rowsFetched w' = rowsFetched w + (maxCount - count) + 1.
Proof.
  intros Hmax Hall. induction Hall as [|ev events [Hs Ha] _ IH]; intros count w Hc Hlen.
  - cbn in Hlen. lia.
  - cbn [appendLoop]. unfold bind, modify, check. rewrite Hs, Ha. unfold ret, fail.
    destruct (Z.gtb_spec (count + 1) maxCount) as [Hgt|Hle].
    + exists (appendRow (fetchRow w)). cbn. split; [reflexivity | lia].
    + destruct (Z.geb_spec (count + 1) batchSize) as [Hge|Hlt]; [lia|].
      destruct (IH (count + 1) (appendRow (fetchRow w))) as (w' & Hrun & Hf).
      * lia.
      * cbn [length] in Hlen. lia.
      * exists w'. rewrite Hrun, Hf. cbn. split; [reflexivity | lia].
Qed.

(** ** The native path between CREATE and the deferred DROP *)

(** When the count probe is over the budget the native path returns before
    its drop is deferred: the temporary table stays and no [DROP] is sent. *)
Lemma pivotNative_over_budget (B : Backend) priority sqlString args q w count :
  let name := tempName "_for_pivot_" in
  let create := "CREATE TEMPORARY TABLE " ++ name ++ " AS " ++ sqlString in
  let probe := "SELECT COUNT(*) FROM " ++ name in
  0 < cols q ->
  Exec B create args = None ->
  ExecuteCount B probe = inr (Some (inr count)) ->
  count > Z.quot maxPivotCells (cols q) ->
  exists w',
    pivotNative B priority sqlString args (q, w)
    = ((q, w'), inl (ErrPivotCellsExceeded maxPivotCells))
    /\ olapTempTables w' = append1 (olapTempTables w) name
    /\ olapStatements w' = (olapStatements w ++ [create; probe])%list.
Proof.
  intros name create probe _ HE HC Hgt. unfold pivotNative.
  fold name. fold create. fold probe.
  unfold bind, onWorld, check, lift, getRequest. rewrite HE. unfold ret. rewrite HC.
  cbn [fst]. destruct (Z.gtb_spec count (Z.quot maxPivotCells (cols q))) as [_|Hle]; [|lia].
  unfold fail. eexists. split; [reflexivity|]. cbn. unfold append1.
  rewrite <- app_assoc. split; reflexivity.
Qed.

Lemma removeTable_appended name ts :
  ~ In name ts -> removeTable name (append1 ts name) = ts.
Proof.
  unfold removeTable, append1. intros Hn. rewrite filter_app. cbn.
  rewrite String.eqb_refl. cbn. rewrite app_nil_r.
  induction ts as [|t ts IH]; cbn; [reflexivity|].
  destruct (String.eqb_spec t name) as [->|_]; cbn.
  - elim Hn. now left.
  - rewrite IH; [reflexivity|]. intros H. apply Hn. now right.
Qed.

(** When the count probe is within the budget the drop is deferred: whether
    the pivot query succeeds or fails, the [DROP] is the last statement sent
    and, when it succeeds, the temporary table is gone. *)
Lemma pivotNative_within_budget (B : Backend) priority sqlString args q w count :
  let name := tempName "_for_pivot_" in
  let create := "CREATE TEMPORARY TABLE " ++ name ++ " AS " ++ sqlString in
  let probe := "SELECT COUNT(*) FROM " ++ name in
  Exec B create args = None ->
  ExecuteCount B probe = inr (Some (inr count)) ->
  count <= Z.quot maxPivotCells (cols q) ->
  Exec B (dropStatement name) [] = None ->
  ~ In name (olapTempTables w) ->
  exists q' w' r sent,
    pivotNative B priority sqlString args (q, w) = ((q', w'), r)
    /\ olapTempTables w' = olapTempTables w
    /\ olapStatements w' = (sent ++ [dropStatement name])%list.
Proof.
  intros name create probe HE HC Hle HD Hn. unfold pivotNative.
  fold name. fold create. fold probe.
  unfold bind at 1, onWorld at 1. unfold bind at 1, check at 1. rewrite HE. unfold ret at 1.
  unfold bind at 1, onWorld at 1. unfold bind at 1, onWorld at 1.
  unfold bind at 1, lift at 1. rewrite HC.
  unfold bind at 1, getRequest at 1. cbn [fst].
  destruct (Z.gtb_spec count (Z.quot maxPivotCells (cols q))) as [Hgt|_]; [lia|].
  unfold bind at 1, ret at 1. unfold bind at 1, onWorld at 1.
  unfold defer, inWorld, olapDrop. rewrite HD.
  match goal with
  | |- context [let '(s1, r) := ?body ?s in _] => destruct (body s) as [[q1 w1] r] eqn:Hbody
  end.
  assert (Hw1 : olapTempTables w1 = append1 (olapTempTables w) name).
  { revert Hbody. unfold bind at 1, onRequest at 1.
    destruct (createPivotSQL name q) as [q2 [e|pivotSQL]]; [now inversion 1|].
    unfold bind at 1, onWorld at 1. unfold bind at 1, lift at 1.
    destruct (olapQueryResult B pivotSQL []) as [e|[schema data]]; [now inversion 1|].
    unfold setResult, onRequest, modify. now inversion 1. }
  eexists q1, _, r, (olapStatements w1). cbn [fst snd].
  split; [reflexivity|]. cbn. rewrite Hw1. split; [|reflexivity].
  now apply removeTable_appended.
Qed.

(** ** Errors that do not reach the caller *)

(** A failure to take a connection of the embedded engine ends in
    [return nil]. *)
Lemma pivotDruid_conn_error (B : Backend) rows q w e createTableSQL :
  Connect B = None ->
  CreateTableQuery B (rowsSchema rows) (tempName "_for_pivot_") = inr createTableSQL ->
  ExecContext B createTableSQL = None ->
  Conn B = Some e ->
  exists w', pivotDruid B rows (q, w) = ((q, w'), inr tt).
Proof.
  intros H1 H2 H3 H4. unfold pivotDruid, bind, check, defer, lift, onWorld.
  rewrite H1. unfold ret. rewrite H2, H3, H4. eexists. reflexivity.
Qed.

(** An error of the base query on the manual path ends in [return nil]. *)
Lemma resolve_manual_execute_error (B : Backend) priority q w q1 sqlString args e :
  OLAP B = inr DialectDruid ->
  isEmpty (TimeDimension (MetricsView q)) && negb (isTimeRangeNil (QTimeRange q)) = false ->
  Filter q = None ->
  PivotOn q <> [] ->
  buildMetricsAggregationSQL (MetricsView q) DialectDruid (ResolvedMVSecurity q) q
  = (q1, inr (sqlString, args)) ->
  Execute B sqlString args = inl e ->
  Resolve B priority (q, w) = ((q1, close "olap" (sendOlap sqlString w)), inr tt).
Proof.
  intros HO HT HF HP HB HX. unfold Resolve.
  unfold bind at 1, lift at 1. rewrite HO. unfold defer. cbn [Dialect_eqb negb andb].
  unfold bind at 1, getRequest at 1. cbn [fst]. rewrite HT.
  unfold bind at 1. rewrite HF. unfold ret at 1.
  unfold bind at 1, getRequest at 1. cbn [fst].
  unfold bind at 1, wrapError at 1, onRequest at 1. rewrite HB.
  unfold bind at 1, getRequest at 1. cbn [fst].
  assert (HP1 : (length (PivotOn q1) =? 0)%nat = false).
  { apply build_ok_inv in HB.
    destruct HB as (_ & _ & _ & _ & _ & _ & _ & _ & _ & _ & Hq & _). subst q1.
    destruct (normalized_fields q) as (-> & _). destruct (PivotOn q); [congruence | reflexivity]. }
  rewrite HP1. unfold bind at 1, onWorld at 1. rewrite HX. reflexivity.
Qed.

End ExecutionProperties.

Section Witnesses.
Import Example.
#[local] Existing Instance messages.
#[local] Existing Instance helpers.
#[local] Existing Instance encoders.


Lemma pivot_offset_rejected_witness :
  let q := request (Some 5) 10 ["year"] in
  PivotOn q <> [] /\ Offset q <> 0
  /\ (exists e, snd (buildMetricsAggregationSQL adBids DialectDuckDB policy q) = inl e)
  /\ forall (B : Backend) priority w,
       exists q' w' e,
         Resolve B priority (q, w) = ((q', w'), inl e)
         /\ olapStatements w' = olapStatements w
         /\ pivotStatements w' = pivotStatements w
         /\ Result q' = Result q.
Proof.
  intros q.
  assert (HP : PivotOn q <> []) by discriminate.
  assert (HO : Offset q <> 0) by discriminate.
  split; [exact HP|]. split; [exact HO|].
  exact (pivot_offset_rejected adBids DialectDuckDB policy q HP HO).
Defined.





Lemma builders_overwrite_zero_limit_witness :
  let q := request (Some 0) 0 [] in
  Limit q = Some 0
  /\ fst (createPivotSQL "t" q) = set_Limit (Some 100) q
  /\ fst (buildMetricsAggregationSQL adBids DialectDuckDB policy q) = set_Limit (Some 100) q
  /\ Key (set_Limit (Some 100) q) <> Key q.
Proof.
  intros q.
  destruct (builders_overwrite_zero_limit adBids DialectDuckDB policy "t" q)
    as (H1 & H2 & _ & H4 & _).
  destruct (H4 eq_refl) as [Hn Hk]. rewrite Hn in H1, H2, Hk.
  split; [reflexivity|]. split; [exact H1|]. split; [|exact Hk].
  eapply H2. vm_compute. reflexivity.
Defined.

(** C1: for a request of three columns the budget is 333333 rows; on a base
    result of 333334 rows that all scan and append, [pivotDruid] takes and
    appends every row, runs the pivot query and returns no error: [count] is
    reset at each flush of 10000 rows and never exceeds the budget. *)
Theorem pivotDruid_misses_cell_budget :
  Z.quot maxPivotCells (cols (request None 0 ["year"])) = 333333
  /\ Z.of_nat (length (rowEvents (baseRows 333334))) = 333334
  /\ exists q' w',
       pivotDruid (backend DialectDruid 333334 None None) (baseRows 333334)
         (request None 0 ["year"], emptyWorld) = ((q', w'), inr tt)
       /\ rowsFetched w' = 333334
       /\ rowsAppended w' = 333334
       /\ Result q' <> None.
Proof.
  split; [reflexivity|]. split; [vm_compute; reflexivity|].
  eexists _, _. split; [vm_compute; reflexivity|].
  repeat split; discriminate.
Qed.

(** C2: on the native path, when the count probe reports 333334 rows for a
    budget of 333333, [Resolve] returns the cell-limit error with the
    temporary table still in the session and without having sent a [DROP]
    for it: the drop is deferred only after the count check. *)
Theorem native_pivot_leaves_temp_table :
  exists q' w',
    Resolve (backend DialectDuckDB 333334 None None) 0
      (request None 0 ["year"], emptyWorld)
    = ((q', w'), inl (ErrPivotCellsExceeded maxPivotCells))
    /\ olapTempTables w' = [tempName "_for_pivot_"]
    /\ existsb (String.eqb (dropStatement (tempName "_for_pivot_"))) (olapStatements w')
       = false.
Proof.
  eexists _, _. split; [vm_compute; reflexivity|]. split; reflexivity.
Qed.

(** C3: on the manual path [Resolve] returns the nil error, and leaves no
    result, when the base query fails and when no connection of the embedded
    pivot engine can be taken. *)
Theorem resolve_returns_nil_on_failure :
  (exists q' w',
     Resolve (backend DialectDruid 3 (Some (ErrExternal "druid: query failed")) None) 0
       (request None 0 ["year"], emptyWorld) = ((q', w'), inr tt)
     /\ Result q' = None)
  /\ (exists q' w',
        Resolve (backend DialectDruid 3 None (Some (ErrExternal "duckdb: no connection"))) 0
          (request None 0 ["year"], emptyWorld) = ((q', w'), inr tt)
        /\ Result q' = None).
Proof.
  split; eexists _, _; (split; [vm_compute; reflexivity | reflexivity]).
Qed.

End Witnesses.

(** * Further properties of the builder *)

Section MoreBuilderProperties.
Context {MSG : Messages} {HLP : Helpers}.

Lemma dimensionLoop_entries q mv dialect ds :
  forall st st', dimensionLoop q mv dialect ds st = inr st' ->
  exists added,
    selectCols st' = (selectCols st ++ added)%list
    /\ Forall2 (isDimensionEntry q mv dialect) ds added
    /\ loopArgs st' = (loopArgs st ++ timeBucketArgs q dialect ds)%list.
Proof.
  induction ds as [|d ds IH]; intros st st' H; cbn [dimensionLoop] in H.
  - inversion H; subst. exists []. cbn. rewrite !app_nil_r. repeat split. constructor.
  - unfold timeBucketArgs. cbn [flat_map]. fold (timeBucketArgs q dialect ds).
    destruct (Z.eqb_spec (DimTimeGrain d) TimeGrain_TIME_GRAIN_UNSPECIFIED) as [Hg|Hg].
    + unfold bindE in H.
      destruct (metricsViewDimension mv (DimName d)) as [e|dim] eqn:Hd; [discriminate|].
      destruct (dimensionSelect mv dim dialect) as [dimSel unnestClause] eqn:Hs.
      apply IH in H. destruct H as (added & Hsel & Hall & Hargs). cbn in Hsel, Hargs.
      unfold append1 in Hsel. rewrite <- app_assoc in Hsel.
      exists (dimSel :: added). repeat split; try assumption.
      constructor; [|assumption].
      eapply plainDimensionEntry; eauto. now rewrite Hs.
    + unfold bindE in H.
      destruct (buildTimestampExpr q d dialect) as [e|[expr exprArgs]] eqn:Ht; [discriminate|].
      apply IH in H. destruct H as (added & Hsel & Hall & Hargs). cbn in Hsel, Hargs.
      unfold append1 in Hsel. rewrite <- app_assoc in Hsel, Hargs.
      exists ((expr ++ " as " ++ safeName (DimName d)) :: added). repeat split; try assumption.
      constructor; [|assumption].
      eapply timeDimensionEntry; eauto.
Qed.

Lemma measureLoop_entries mv ms :
  forall sels sels', measureLoop mv ms sels = inr sels' ->
  exists added, sels' = (sels ++ added)%list /\ Forall2 (isMeasureEntry mv) ms added.
Proof.
  induction ms as [|m ms IH]; intros sels sels' H; cbn [measureLoop] in H.
  - inversion H; subst. exists []. rewrite app_nil_r. split; [reflexivity | constructor].
  - assert (Hstep : forall x, isMeasureEntry mv m x ->
              measureLoop mv ms (append1 sels x) = inr sels' ->
              exists added, sels' = (sels ++ added)%list
                            /\ Forall2 (isMeasureEntry mv) (m :: ms) added).
    { intros x Hx Hrun. apply IH in Hrun. destruct Hrun as (added & Hs & Hall).
      exists (x :: added). unfold append1 in Hs. rewrite <- app_assoc in Hs.
      split; [exact Hs | now constructor]. }
    destruct (Z.eqb_spec (MeasureBuiltinMeasure m) BuiltinMeasure_BUILTIN_MEASURE_UNSPECIFIED)
      as [H0|H0].
    + unfold bindE in H.
      destruct (metricsViewMeasureExpression mv (MeasureName m)) as [e|expr] eqn:He;
        [discriminate|].
      eapply Hstep; [|eassumption]. eapply viewMeasureEntry; eauto.
    + destruct (Z.eqb_spec (MeasureBuiltinMeasure m) BuiltinMeasure_BUILTIN_MEASURE_COUNT)
        as [H1|H1].
      * eapply Hstep; [|eassumption]. now apply countEntry.
      * destruct (Z.eqb_spec (MeasureBuiltinMeasure m)
                    BuiltinMeasure_BUILTIN_MEASURE_COUNT_DISTINCT) as [H2|H2];
          [|discriminate].
        destruct (MeasureBuiltinMeasureArgs m) as [|v [|? ?]] eqn:Ha; try discriminate.
        destruct (isEmpty (GetStringValue v)) eqn:Hv; [discriminate|].
        eapply Hstep; [|eassumption]. eapply countDistinctEntry; eauto.
        intros Hempty. apply isEmpty_true in Hempty. congruence.
Qed.

Lemma isMeasureEntry_not_malformed mv m entry :
  isMeasureEntry mv m entry -> ~ malformedMeasure m.
Proof.
  intros [expr H0 _ _ | H1 _ | v H2 Ha Hv _] [(N0 & N1 & N2) | (E2 & Hall)];
    try congruence;
    try (rewrite E2 in *; discriminate).
  apply Hv. now apply Hall.
Qed.


(** X2: a request with a malformed builtin measure (an unknown builtin, or
    a distinct count whose arguments are not exactly one non-empty string)
    never compiles: the builder returns an error and no query. *)
Theorem malformed_measure_rejected mv dialect policy q m :
  In m (Measures q) -> malformedMeasure m ->
  exists e, snd (buildMetricsAggregationSQL mv dialect policy q) = inl e.
Proof.
  intros Hin Hbad.
  destruct (buildMetricsAggregationSQL mv dialect policy q) as [q1 [e|[sql args]]] eqn:E;
    [now exists e|].
  apply build_ok_inv in E.
  destruct E as (st & sels & wf & a1 & hc & _ & _ & E2 & _).
  apply measureLoop_entries in E2. destruct E2 as (ms & _ & Hms).
  exfalso. clear - Hin Hbad Hms.
  induction Hms as [|m0 x ms0 xs Hx _ IH]; [contradiction|].
  destruct Hin as [->|Hin]; [|now apply IH].
  now apply (isMeasureEntry_not_malformed mv m x).
Qed.

Lemma whereFragments_args q mv dialect policy args wf args' :
  whereFragments q mv dialect policy args = inr (wf, args') ->
  exists timeArgs whereFragment whereArgs,
    (if isEmpty (TimeDimension mv) then timeArgs = args
     else exists clause,
            timeRangeClause (QTimeRange q) mv dialect (safeName (TimeDimension mv)) args
            = inr (clause, timeArgs))
    /\ isWhereFragmentWith q mv dialect whereFragment whereArgs
    /\ args' = (timeArgs ++ whereArgs)%list.
Proof.
  unfold whereFragments, isWhereFragmentWith, bindE. intros H.
  destruct (isEmpty (TimeDimension mv)); cbn [negb] in H.
  - exists args. destruct (Where q) as [w|].
    + destruct (buildExpression mv w dialect) as [e|[clause cargs]]; [discriminate|].
      exists clause, cargs. inversion H; subst. auto.
    + exists EmptyString, []. inversion H; subst. rewrite app_nil_r. auto.
  - destruct (timeRangeClause (QTimeRange q) mv dialect (safeName (TimeDimension mv)) args)
      as [e|[tp targs]]; [discriminate|].
    exists targs. destruct (Where q) as [w|].
    + destruct (buildExpression mv w dialect) as [e|[clause cargs]]; [discriminate|].
      exists clause, cargs. inversion H; subst. eauto.
    + exists EmptyString, []. inversion H; subst. rewrite app_nil_r. eauto.
Qed.

Lemma havingClauseOf_spec q mv dialect args hc args' :
  havingClauseOf q mv dialect args = inr (hc, args') ->
  exists fragment havingArgs,
    isHavingFragment q mv dialect fragment havingArgs
    /\ hc = havingText fragment
    /\ args' = (args ++ havingArgs)%list.
Proof.
  unfold havingClauseOf, isHavingFragment, havingText, bindE. intros H.
  destruct (Having q) as [h|].
  - destruct (buildExpression mv h dialect) as [e|[clause cargs]]; [discriminate|].
    exists clause, cargs. inversion H; subst. destruct (isBlank clause); auto.
  - exists EmptyString, []. inversion H; subst. rewrite app_nil_r. auto.
Qed.

(** X3: the arguments of a compiled query are, in this order, the
    arguments of the time buckets of the dimensions (as the time-range
    clause of a view with a time dimension leaves them), then the arguments
    of the compiled WHERE expression, then those of the compiled HAVING
    expression. *)
Theorem compiled_args_order mv dialect policy q q' sql args :
  buildMetricsAggregationSQL mv dialect policy q = (q', inr (sql, args)) ->
  exists timeArgs whereFragment whereArgs havingFragment havingArgs,
    (if isEmpty (TimeDimension mv)
     then timeArgs = timeBucketArgs q dialect (Dimensions q)
     else exists clause,
            timeRangeClause (QTimeRange q) mv dialect (safeName (TimeDimension mv))
              (timeBucketArgs q dialect (Dimensions q))
            = inr (clause, timeArgs))
    /\ isWhereFragmentWith q mv dialect whereFragment whereArgs
    /\ isHavingFragment q mv dialect havingFragment havingArgs
    /\ args = (timeArgs ++ whereArgs ++ havingArgs)%list.
Proof.
  intros H. apply build_ok_inv in H.
  destruct H as (st & sels & wf & a1 & hc & _ & E1 & _ & E3 & E4 & _).
  apply dimensionLoop_entries in E1. destruct E1 as (ds & _ & _ & Ha). cbn in Ha.
  rewrite Ha in E3.
  apply whereFragments_args in E3. destruct E3 as (ta & wfr & wa & Ht & Hw & ->).
  apply havingClauseOf_spec in E4. destruct E4 as (hfr & ha & Hh & _ & ->).
  exists ta, wfr, wa, hfr, ha. rewrite <- app_assoc. auto.
Qed.


(** ** Time buckets *)

Lemma countChar_app c a b : countChar c (a ++ b) = countChar c a + countChar c b.
Proof. induction a as [|x a IH]; cbn [append countChar]; [reflexivity | rewrite IH; lia]. Qed.

Lemma buildTimestampExpr_column q dim dialect expr args :
  buildTimestampExpr q dim dialect = inr (expr, args) ->
  exists col,
    isTimeColumn q dim col
    /\ match dialect with
       | DialectDuckDB =>
           if utcOrUnset (DimTimeZone dim)
           then expr = "date_trunc('" ++ convertToDateTruncSpecifier (DimTimeGrain dim) ++ "', "
                       ++ col ++ ")" /\ args = []
           else expr = "timezone(?, date_trunc('"
                       ++ convertToDateTruncSpecifier (DimTimeGrain dim)
                       ++ "', timezone(?, " ++ col ++ "::TIMESTAMPTZ)))"
                /\ args = [anyString (DimTimeZone dim); anyString (DimTimeZone dim)]
       | DialectDruid =>
           if utcOrUnset (DimTimeZone dim)
           then expr = "date_trunc('" ++ convertToDateTruncSpecifier (DimTimeGrain dim) ++ "', "
                       ++ col ++ ")" /\ args = []
           else expr = "time_floor(" ++ col ++ ", '"
                       ++ convertToDruidTimeFloorSpecifier (DimTimeGrain dim)
                       ++ "', null, CAST(? AS VARCHAR)))"
                /\ args = [anyString (DimTimeZone dim)]
       | DialectUnspecified => False
       end.
Proof.
  unfold buildTimestampExpr, isTimeColumn, bindE. intros H.
  destruct (String.eqb (DimName dim) (TimeDimension (MetricsView q))).
  - exists (safeName (DimName dim)). split; [reflexivity|].
    destruct dialect; [discriminate| |]; destruct (utcOrUnset (DimTimeZone dim));
      inversion H; subst; auto.
  - destruct (metricsViewDimension (MetricsView q) (DimName dim)) as [e|d] eqn:Hd;
      [discriminate|].
    destruct (isEmpty (SpecDimensionExpression d)) eqn:He; cbn [negb] in H; [|discriminate].
    apply isEmpty_true in He.
    exists (metricsViewDimensionExpression d). split; [eauto|].
    destruct dialect; [discriminate| |]; destruct (utcOrUnset (DimTimeZone dim));
      inversion H; subst; auto.
Qed.

(** X5: a time bucket has as many arguments as it has placeholders of its
    own: the [?] of the expression are those of the column and of the
    specifier plus one for each argument (none for UTC or no time zone, two
    for DuckDB and one for Druid otherwise). *)
Theorem time_bucket_placeholders q dim dialect expr args :
  buildTimestampExpr q dim dialect = inr (expr, args) ->
  exists col,
    isTimeColumn q dim col
    /\ countChar "?"%char expr
       = Z.of_nat (length args) + countChar "?"%char col
         + countChar "?"%char (bucketSpecifier dialect dim)
    /\ Z.of_nat (length args)
       = if utcOrUnset (DimTimeZone dim) then 0
         else match dialect with DialectDuckDB => 2 | _ => 1 end.
Proof.
  intros H. apply buildTimestampExpr_column in H. destruct H as (col & Hcol & H).
  exists col. split; [assumption|]. unfold bucketSpecifier.
  destruct dialect; [contradiction| |]; destruct (utcOrUnset (DimTimeZone dim));
    destruct H as [-> ->]; rewrite ?countChar_app; cbn -[Z.add Z.sub Z.of_nat];
    rewrite ?countChar_app; cbn -[Z.add Z.sub Z.of_nat]; split; lia.
Qed.

(** X6: the time bucket of DuckDB, and that of Druid for UTC or no time
    zone, closes the parentheses it opens around the column and the
    specifier; the [time_floor] bucket of Druid for another time zone closes
    one parenthesis more than it opens. *)
Theorem time_bucket_parentheses q dim dialect expr args :
  buildTimestampExpr q dim dialect = inr (expr, args) ->
  exists col,
    isTimeColumn q dim col
    /\ parenDepth expr
       = parenDepth col + parenDepth (bucketSpecifier dialect dim)
         - (if Dialect_eqb dialect DialectDruid && negb (utcOrUnset (DimTimeZone dim))
            then 1 else 0).
Proof.
  intros H. apply buildTimestampExpr_column in H. destruct H as (col & Hcol & H).
  exists col. split; [assumption|]. unfold bucketSpecifier, parenDepth.
  destruct dialect; [contradiction| |]; destruct (utcOrUnset (DimTimeZone dim));
    destruct H as [-> ->]; rewrite ?countChar_app; cbn -[Z.add Z.sub Z.of_nat];
    rewrite ?countChar_app; cbn -[Z.add Z.sub Z.of_nat]; lia.
Qed.

(** ** The pivot query after a build *)

Lemma normalized_idempotent (q : MetricsViewAggregation) :
  normalized (normalized q) = normalized q.
Proof. unfold normalized. destruct (Limit q) as [[| |]|] eqn:E; cbn; rewrite ?E; reflexivity. Qed.

Lemma pivotSortCriterion_term s : pivotSortCriterion s = sortTerm " NULLS LAST" s.
Proof.
  unfold pivotSortCriterion, sortTerm. destruct (SortDesc s); [|reflexivity].
  now rewrite append_assoc.
Qed.

Lemma createPivotSQL_run temporaryTableName q :
  createPivotSQL temporaryTableName q =
  (normalized q,
   inr ("PIVOT " ++ temporaryTableName ++ " ON " ++ Join (PivotOn q) ", " ++ " USING "
          ++ Join (map lastOf (Measures q)) ", " ++ " "
          ++ orderClauseOf (map (sortTerm " NULLS LAST") (Sort q)) ++ " "
          ++ limitText (Limit (normalized q)) ++ " OFFSET " ++ fmt_d (Offset q))).
Proof.
  unfold createPivotSQL. unfold bind at 1, get at 1. unfold bind at 1.
  rewrite limitClauseStep_run. unfold bind, get, ret.
  rewrite (map_ext _ _ pivotSortCriterion_term).
  unfold normalized. destruct (Limit q) as [[| |]|]; reflexivity.
Qed.


End MoreBuilderProperties.

(** * Further properties of the cache key *)


Section MoreKeyProperties.
Context {MSG : Messages} {ENC : Encoders}.

Lemma digits_have_no_comma (d : Decimal.uint) :
  forall c, In c (list_ascii_of_string (NilEmpty.string_of_uint d)) -> c <> ","%char.
Proof.
  induction d; cbn; intros c Hc; try contradiction;
    (destruct Hc as [<-|Hc]; [discriminate | now apply IHd]).
Qed.

Lemma fmt_d_has_no_comma (z : Z) :
  forall c, In c (list_ascii_of_string (fmt_d z)) -> c <> ","%char.
Proof.
  unfold fmt_d, NilZero.string_of_int. intros c.
  destruct (Z.to_int z) as [d|d]; cbn.
  - destruct d; try apply digits_have_no_comma.
    cbn. intros [<-|[]]. discriminate.
  - intros [<-|Hc]; [discriminate|]. revert Hc.
    destruct d; try apply digits_have_no_comma.
    cbn. intros [<-|[]]. discriminate.
Qed.

(** Two texts without a comma that are followed by a comma agree when the
    whole texts agree. *)
Lemma comma_terminated_inj (s1 s2 r1 r2 : string) :
  (forall c, In c (list_ascii_of_string s1) -> c <> ","%char) ->
  (forall c, In c (list_ascii_of_string s2) -> c <> ","%char) ->
  s1 ++ "," ++ r1 = s2 ++ "," ++ r2 -> s1 = s2.
Proof.
  revert s2. induction s1 as [|a s1 IH]; intros [|b s2] H1 H2 H; cbn in *.
  - reflexivity.
  - injection H as Hh _. elim (H2 b); auto.
  - injection H as Hh _. elim (H1 a); auto.
  - injection H as Hh Ht. subst b. f_equal. apply IH; auto.
Qed.

Lemma fmt_d_inj (a b : Z) : fmt_d a = fmt_d b -> a = b.
Proof.
  assert (Hread : forall z,
            option_map Z.of_int (NilZero.int_of_string (fmt_d z)) = Some z).
  { intros z. unfold fmt_d.
    destruct (Decimal.signed_int_eq_dec (Z.to_int z) (Decimal.Pos Decimal.Nil)) as [E|N1].
    - rewrite E, NilZero.isi_posnil. cbn. rewrite <- (DecimalZ.of_to z), E. reflexivity.
    - destruct (Decimal.signed_int_eq_dec (Z.to_int z) (Decimal.Neg Decimal.Nil)) as [E|N2].
      + rewrite E, NilZero.isi_negnil. cbn. rewrite <- (DecimalZ.of_to z), E. reflexivity.
      + rewrite NilZero.isi by assumption. cbn. now rewrite DecimalZ.of_to. }
  intros H. pose proof (Hread a) as Ha. rewrite H, Hread in Ha. congruence.
Qed.

Lemma jsonMembers_around_limit (q : MetricsViewAggregation) :
  exists pre tail,
    forall l, jsonMembers (set_Limit l q)
              = (pre ++ omitempty (isNil l) "limit" (orEmpty fmt_d l)
                     ++ omitempty (Offset q =? 0) "offset" (fmt_d (Offset q))
                     ++ jsonField "security" (jsonSecurity (ResolvedMVSecurity q)) :: tail)%list.
Proof.
  exists
    (omitempty (isEmpty (MetricsViewName q)) "metrics_view" (jsonString (MetricsViewName q))
     ++ omitempty (length (Dimensions q) =? 0)%nat "dimensions" (jsonDimensions (Dimensions q))
     ++ omitempty (length (Measures q) =? 0)%nat "measures" (jsonMeasures (Measures q))
     ++ omitempty (length (Sort q) =? 0)%nat "sort" (jsonSort (Sort q))
     ++ omitempty (isNil (QTimeRange q)) "time_range" (orEmpty jsonTimeRange (QTimeRange q))
     ++ omitempty (isNil (Where q)) "where" (orEmpty jsonExpression (Where q))
     ++ omitempty (isNil (Having q)) "having" (orEmpty jsonExpression (Having q))
     ++ omitempty (Priority q =? 0) "priority" (fmt_d (Priority q)))%list,
    (omitempty (length (PivotOn q) =? 0)%nat "pivot_on" (jsonStrings (PivotOn q))
     ++ omitempty (isNil (Filter q)) "filter" (orEmpty jsonFilter (Filter q)))%list.
  intros l. unfold jsonMembers. cbn [set_Limit MetricsViewName Dimensions Measures Sort
    QTimeRange Where Having Priority Limit Offset ResolvedMVSecurity PivotOn Filter].
  rewrite <- !app_assoc. reflexivity.
Qed.

(** X8: the cache key tells the limit of a request: two requests that
    differ only in their limit (unset, or set to different values) have
    different keys; and the key does not depend on the result stored in the
    request. *)
Theorem key_determines_limit (q : MetricsViewAggregation) :
  (forall l1 l2, Key (set_Limit l1 q) = Key (set_Limit l2 q) -> l1 = l2)
  /\ (forall res, Key (set_Result res q) = Key q).
Proof.
  split; [|reflexivity].
  assert (Hsome : forall a tail1 tail2,
            Join (jsonField "limit" (fmt_d a) :: tail1) "," ++ "}"
            <> Join (jsonField "offset" (fmt_d (Offset q)) :: tail2) "," ++ "}"
            /\ Join (jsonField "limit" (fmt_d a) :: tail1) "," ++ "}"
               <> Join (jsonField "security" (jsonSecurity (ResolvedMVSecurity q)) :: tail2)
                    "," ++ "}").
  { intros a [|x t1] [|y t2]; split; cbn; discriminate. }
  intros l1 l2 H. unfold Key in H.
  destruct (jsonMembers_around_limit q) as (pre & tail & Hm). rewrite !Hm in H.
  apply append_inv_l in H. apply append_inv_l in H.
  apply Join_prefix_cancel in H;
    [|destruct l1; destruct (Offset q =? 0); discriminate
     |destruct l2; destruct (Offset q =? 0); discriminate].
  destruct l1 as [a|], l2 as [b|]; cbn [isNil omitempty orEmpty app] in H.
  - f_equal. apply fmt_d_inj.
    assert (Hnext : exists y rest,
              (omitempty (Offset q =? 0) "offset" (fmt_d (Offset q))
               ++ jsonField "security" (jsonSecurity (ResolvedMVSecurity q)) :: tail)%list
              = y :: rest)
      by (destruct (Offset q =? 0); cbn; eauto).
    destruct Hnext as (y & rest & Hnext). rewrite Hnext in H.
    rewrite !Join_cons_cons in H. unfold jsonField in H.
    rewrite !append_assoc in H.
    do 4 apply append_inv_l in H.
    exact (comma_terminated_inj _ _ _ _ (fmt_d_has_no_comma a) (fmt_d_has_no_comma b) H).
  - exfalso. destruct (Offset q =? 0); cbn [omitempty app] in H;
      now apply (Hsome a) in H.
  - exfalso. symmetry in H. destruct (Offset q =? 0); cbn [omitempty app] in H;
      now apply (Hsome b) in H.
  - reflexivity.
Qed.

End MoreKeyProperties.

(** * Further properties of the execution *)

Section MoreExecutionProperties.
Context {MSG : Messages} {HLP : Helpers}.

Ltac run_monad_in H :=
  cbv beta iota delta [bind lift ret fail get put modify defer check onRequest onWorld
                       onBackends inWorld getRequest wrapError setResult] in H;
  cbn [fst snd] in H.

Ltac split_cases_in H :=
  repeat first
    [ rewrite createPivotSQL_run in H; cbv beta iota in H; cbn [fst snd] in H
    | match type of H with
      | context [match ?x with _ => _ end] =>
          lazymatch x with
          | context [match _ with _ => _ end] => fail
          | _ => destruct x eqn:?; cbv beta iota in H; cbn [fst snd] in H
          end
      end ].

(** ** The pivot result *)

Lemma toDataLoop_ok (B : Backend) schema scans :
  forall data data',
    toDataLoop B scans schema data = inr data' <->
    exists added, Forall2 (convertsTo B schema) scans added /\ data' = (data ++ added)%list.
Proof.
  induction scans as [|scan scans IH]; intros data data'; cbn [toDataLoop].
  - split.
    + intros H. inversion H; subst. exists []. rewrite app_nil_r. split; [constructor | reflexivity].
    + intros (added & Hall & ->). inversion Hall; subst. now rewrite app_nil_r.
  - unfold bindE. split.
    + destruct scan as [e|rowMap]; [discriminate|].
      destruct (ToStruct B rowMap schema) as [e|row] eqn:Hrow; [discriminate|].
      intros H. apply IH in H. destruct H as (added & Hall & ->).
      exists (row :: added). unfold append1. rewrite <- app_assoc. split; [|reflexivity].
      constructor; [|assumption]. exists rowMap. auto.
    + intros (added & Hall & ->). inversion Hall as [|? row ? rest (rowMap & -> & Hrow) Hrest];
        subst. rewrite Hrow. apply IH. exists rest. unfold append1.
      rewrite <- app_assoc. auto.
Qed.

(** X9: [toData] returns rows exactly when the cursor reports no error and
    every row scans and converts; the rows it returns are the converted rows
    in the order of the cursor, one for each. *)
Theorem toData_ok (B : Backend) (rows : PivotRows (RowMap B)) schema data :
  toData B rows schema = inr data <->
  pivotRowsErr _ rows = None /\ Forall2 (convertsTo B schema) (mapScans _ rows) data.
Proof.
  unfold toData, bindE. split.
  - destruct (toDataLoop B (mapScans _ rows) schema []) as [e|d] eqn:E; [discriminate|].
    destruct (pivotRowsErr _ rows); [discriminate|]. intros H. inversion H; subst.
    apply toDataLoop_ok in E. destruct E as (added & Hall & ->). auto.
  - intros (Herr & Hall).
    assert (E : toDataLoop B (mapScans _ rows) schema [] = inr data)
      by (apply toDataLoop_ok; exists data; auto).
    now rewrite E, Herr.
Qed.

(** ** What [Resolve] leaves in the request *)

Lemma pivotDruid_request (B : Backend) rows q w q' w' r :
  pivotDruid B rows (q, w) = ((q', w'), r) -> left_as q r q'.
Proof.
  intros H. unfold pivotDruid in H. run_monad_in H.
  split_cases_in H; inversion H; subst; try (destruct u); constructor.
Qed.

Lemma pivotNative_request (B : Backend) priority sqlString args q w q' w' r :
  pivotNative B priority sqlString args (q, w) = ((q', w'), r) -> left_as q r q'.
Proof.
  intros H. unfold pivotNative in H. run_monad_in H.
  split_cases_in H; inversion H; subst; try (destruct u); constructor.
Qed.

Lemma left_as_normalized q r q' :
  left_as (normalized q) r q' ->
  q' = normalized q \/ (r = inr tt /\ exists res, q' = set_Result (Some res) (normalized q)).
Proof.
  intros H. inversion H; subst; rewrite ?normalized_idempotent; eauto.
Qed.

Lemma build_error_request mv dialect policy q q1 e :
  buildMetricsAggregationSQL mv dialect policy q = (q1, inl e) ->
  q1 = q \/ q1 = normalized q.
Proof.
  intros H. destruct (build_request mv dialect policy q) as [Hq|Hq];
    rewrite H in Hq; cbn [fst] in Hq; auto.
Qed.

Lemma build_ok_request mv dialect policy q q1 v :
  buildMetricsAggregationSQL mv dialect policy q = (q1, inr v) -> q1 = normalized q.
Proof.
  destruct v as [sql args]. intros H. apply build_ok_inv in H.
  now destruct H as (_ & _ & _ & _ & _ & _ & _ & _ & _ & _ & Hq & _).
Qed.

Lemma withLegacyFilter_none q : Filter q = None -> withLegacyFilter q = q.
Proof. unfold withLegacyFilter. now intros ->. Qed.

Lemma withLegacyFilter_some q f :
  Filter q = Some f -> Where q = None ->
  withLegacyFilter q = set_Where (convertFilterToExpression f) q.
Proof. unfold withLegacyFilter. now intros -> ->. Qed.

Lemma resolve_request_cases (B : Backend) priority q w q' w' r :
  Resolve B priority (q, w) = ((q', w'), r) -> resolved_as q r q'.
Proof.
  intros H. unfold Resolve in H. run_monad_in H.
  assert (Hbuilt : forall q0 r0, withLegacyFilter q = q0 -> resolved_as q r0 (normalized q0))
    by (intros q0 r0 <-; constructor).
  assert (Hres : forall q0 res, withLegacyFilter q = q0 ->
                   resolved_as q (inr tt) (set_Result (Some res) (normalized q0)))
    by (intros q0 res <-; constructor).
  assert (Hfail : forall q0 e, withLegacyFilter q = q0 -> resolved_as q (inl e) q0)
    by (intros q0 e <-; constructor).
  split_cases_in H; inversion H; subst; clear H;
    try solve [apply stopped_at_checks];
    match goal with
    | Hf : Filter ?q = None |- _ => pose proof (withLegacyFilter_none q Hf) as Hlf
    | Hf : Filter ?q = Some ?f, Hw : Where ?q = None |- _ =>
        pose proof (withLegacyFilter_some q f Hf Hw) as Hlf
    end;
    match goal with
    | Hb : buildMetricsAggregationSQL _ _ _ _ = (_, inl _) |- _ =>
        apply build_error_request in Hb; destruct Hb as [-> | ->]
    | Hb : buildMetricsAggregationSQL _ _ _ _ = (_, inr _) |- _ =>
        apply build_ok_request in Hb; subst
    end;
    try match goal with
    | Hp : pivotNative _ _ _ _ _ = (?p0, _) |- _ =>
        destruct p0 as [qf wf]; apply pivotNative_request in Hp;
        apply left_as_normalized in Hp; destruct Hp as [-> | (-> & res & ->)]
    | Hp : pivotDruid _ _ _ = (?p0, _) |- _ =>
        destruct p0 as [qf wf]; apply pivotDruid_request in Hp;
        apply left_as_normalized in Hp; destruct Hp as [-> | (-> & res & ->)]
    end;
    cbn [fst];
    first [ apply (Hbuilt _ _ Hlf) | apply (Hres _ _ Hlf) | apply (Hfail _ _ Hlf) ].
Qed.

(** X10: whatever [Resolve] returns, it changes nothing in the request but
    [Where] (a legacy filter moved into an unset WHERE expression), [Limit]
    (an explicit 0 written back as 100) and [Result]. *)
Theorem resolve_changes_where_limit_result_only (B : Backend) priority q w q' w' r :
  Resolve B priority (q, w) = ((q', w'), r) ->
  MetricsViewName q' = MetricsViewName q /\ Dimensions q' = Dimensions q
  /\ Measures q' = Measures q /\ Sort q' = Sort q /\ QTimeRange q' = QTimeRange q
  /\ Having q' = Having q /\ Priority q' = Priority q /\ Offset q' = Offset q
  /\ MetricsView q' = MetricsView q /\ ResolvedMVSecurity q' = ResolvedMVSecurity q
  /\ PivotOn q' = PivotOn q /\ Filter q' = Filter q
  /\ (Where q' = Where q
      \/ (Where q = None
          /\ exists f, Filter q = Some f /\ Where q' = convertFilterToExpression f))
  /\ (Limit q' = Limit q \/ (Limit q = Some 0 /\ Limit q' = Some 100)).
Proof.
  intros H. apply resolve_request_cases in H.
  inversion H; subst q'; clear H; unfold normalized, withLegacyFilter;
    destruct (Filter q) as [f|] eqn:EF; destruct (Where q) as [x|] eqn:EW;
    cbn [Limit set_Where set_Limit set_Result]; rewrite ?EF, ?EW;
    destruct (Limit q) as [[| |]|] eqn:EL;
    cbn [MetricsViewName Dimensions Measures Sort QTimeRange Where Having Priority Limit
         Offset MetricsView ResolvedMVSecurity PivotOn Filter set_Where set_Limit set_Result];
    rewrite ?EF, ?EW, ?EL; repeat split; eauto 7.
Qed.

(** X11: when [Resolve] returns an error, the result of the request is the
    one it had before the call: no failed run stores a result. *)
Theorem resolve_error_keeps_result (B : Backend) priority q w q' w' e :
  Resolve B priority (q, w) = ((q', w'), inl e) -> Result q' = Result q.
Proof.
  intros H. apply resolve_request_cases in H.
  inversion H; subst q'; clear H; unfold normalized, withLegacyFilter;
    destruct (Filter q) as [f|]; destruct (Where q) as [x|];
    cbn [Limit set_Where]; destruct (Limit q) as [[| |]|]; reflexivity.
Qed.

(** ** Validation and the plain path *)

Lemma admitted_dialect (B : Backend) dialect q :
  admitted B dialect q ->
  negb (Dialect_eqb dialect DialectDuckDB) && negb (Dialect_eqb dialect DialectDruid) = false.
Proof. intros (_ & Hd & _). destruct dialect; [contradiction | reflexivity | reflexivity]. Qed.

(** [Resolve] up to the build, for a request that passes the checks. *)
Lemma resolve_admitted (B : Backend) priority dialect q w :
  admitted B dialect q ->
  forall q1 rb,
    buildMetricsAggregationSQL (MetricsView q) dialect (ResolvedMVSecurity q)
      (withLegacyFilter q) = (q1, rb) ->
    Resolve B priority (q, w) =
    match rb with
    | inl e => ((q1, close "olap" w), inl (ErrBuildingQuery e))
    | inr (sqlString, args) =>
        let '(s, r) :=
          (if (length (PivotOn q1) =? 0)%nat then
             _ <- onWorld (sendOlap sqlString) ;;
             '(schema, data) <- lift (olapQueryResult B sqlString args) ;;
             setResult schema data
           else if Dialect_eqb dialect DialectDuckDB then
             _ <- check (WithConnection B) ;;
             pivotNative B priority sqlString args
           else
             _ <- onWorld (sendOlap sqlString) ;;
             match Execute B sqlString args with
             | inl _ => ret tt
             | inr rows => defer (inWorld (close "rows")) (pivotDruid B rows)
             end) (q1, w) in
        (inWorld (close "olap") s, r)
    end.
Proof.
  intros Hadm q1 rb Hb. pose proof (admitted_dialect B dialect q Hadm) as Hd.
  destruct Hadm as (HO & _ & HT & HF).
  unfold Resolve. unfold bind at 1, lift at 1. rewrite HO. unfold defer at 1.
  rewrite Hd. unfold bind at 1, getRequest at 1. cbn [fst]. rewrite HT.
  unfold bind at 1.
  assert (Hstep :
    match Filter q with
    | Some f =>
        match Where q with
        | Some _ => fail ErrBothFilterAndWhere
        | None => onRequest (modify (set_Where (convertFilterToExpression f)))
        end
    | None => ret tt
    end (q, w) = ((withLegacyFilter q, w), inr tt)).
  { unfold withLegacyFilter. destruct (Filter q) as [f|]; [|reflexivity].
    destruct HF as [HF|HF]; [discriminate|]. rewrite HF. reflexivity. }
  rewrite Hstep. unfold bind at 1, getRequest at 1. cbn [fst].
  replace (MetricsView (withLegacyFilter q)) with (MetricsView q)
    by (unfold withLegacyFilter; destruct (Filter q); destruct (Where q); reflexivity).
  replace (ResolvedMVSecurity (withLegacyFilter q)) with (ResolvedMVSecurity q)
    by (unfold withLegacyFilter; destruct (Filter q); destruct (Where q); reflexivity).
  unfold bind at 1, wrapError at 1, onRequest at 1. rewrite Hb.
  destruct rb as [e|[sqlString args]]; [reflexivity|].
  unfold bind at 1, getRequest at 1. cbn [fst]. reflexivity.
Qed.

(** X12: a request that passes the checks of [Resolve] but does not compile
    is answered with the build error wrapped as [error building query]; the
    OLAP handle is released and no statement was sent to any backend. *)
Theorem resolve_build_error_sends_nothing (B : Backend) priority dialect q w q1 e :
  admitted B dialect q ->
  buildMetricsAggregationSQL (MetricsView q) dialect (ResolvedMVSecurity q)
    (withLegacyFilter q) = (q1, inl e) ->
  Resolve B priority (q, w) = ((q1, close "olap" w), inl (ErrBuildingQuery e))
  /\ olapStatements (close "olap" w) = olapStatements w
  /\ pivotStatements (close "olap" w) = pivotStatements w.
Proof.
  intros Hadm Hb. rewrite (resolve_admitted B priority dialect q w Hadm _ _ Hb).
  repeat split.
Qed.

(** X13: without a pivot axis, [Resolve] sends exactly the compiled query
    with its arguments; it stores the schema and the rows the backend
    answers and returns nil, or returns the error of the backend and stores
    nothing. *)
Theorem resolve_without_pivot (B : Backend) priority dialect q w q1 sqlString args :
  admitted B dialect q ->
  PivotOn q = [] ->
  buildMetricsAggregationSQL (MetricsView q) dialect (ResolvedMVSecurity q)
    (withLegacyFilter q) = (q1, inr (sqlString, args)) ->
  Resolve B priority (q, w) =
  match olapQueryResult B sqlString args with
  | inr (schema, data) =>
      ((set_Result (Some {| Schema := schema; Data := data |}) q1,
        close "olap" (sendOlap sqlString w)), inr tt)
  | inl err => ((q1, close "olap" (sendOlap sqlString w)), inl err)
  end.
Proof.
  intros Hadm HP Hb. rewrite (resolve_admitted B priority dialect q w Hadm _ _ Hb).
  assert (HP1 : PivotOn q1 = []).
  { apply build_ok_request in Hb. subst q1.
    destruct (normalized_fields (withLegacyFilter q)) as (-> & _).
    unfold withLegacyFilter. destruct (Filter q); destruct (Where q); exact HP. }
  rewrite HP1. cbn [length Nat.eqb].
  unfold bind, onWorld, lift, setResult, onRequest, modify, inWorld.
  destruct (olapQueryResult B sqlString args) as [err|[schema data]]; reflexivity.
Qed.

(** ** The transfer of the manual path *)

Lemma appendLoop_counts maxCount events :
  forall count w w' r,
    appendLoop maxCount events count w = (w', r) ->
    sameBackends w w'
    /\ rowsFetched w <= rowsFetched w' <= rowsFetched w + Z.of_nat (length events)
    /\ rowsFetched w' - rowsFetched w - 1 <= rowsAppended w' - rowsAppended w
       <= rowsFetched w' - rowsFetched w
    /\ (r = inr tt ->
        Forall scansAndAppends events
        /\ rowsFetched w' = rowsFetched w + Z.of_nat (length events)
        /\ rowsAppended w' = rowsAppended w + Z.of_nat (length events)).
Proof.
  unfold sameBackends.
  induction events as [|ev events IH]; intros count w w' r H; cbn [appendLoop] in H.
  - unfold modify in H. inversion H; subst. cbn -[Z.add Z.sub Z.of_nat].
    split; [repeat split|]. split; [cbn; lia|]. split; [lia|].
    intros _. split; [constructor | cbn; lia].
  - assert (Hstop : forall w1 e,
              rowsFetched w1 = rowsFetched w + 1 ->
              rowsAppended w <= rowsAppended w1 <= rowsAppended w + 1 ->
              sameBackends w w1 ->
              (w1, inl e) = (w', r) ->
              (olapStatements w' = olapStatements w /\ olapTempTables w' = olapTempTables w
               /\ pivotStatements w' = pivotStatements w
               /\ pivotTempTables w' = pivotTempTables w)
              /\ rowsFetched w <= rowsFetched w'
                 <= rowsFetched w + Z.of_nat (length (ev :: events))
              /\ rowsFetched w' - rowsFetched w - 1 <= rowsAppended w' - rowsAppended w
                 <= rowsFetched w' - rowsFetched w
              /\ (r = inr tt ->
                  Forall scansAndAppends (ev :: events)
                  /\ rowsFetched w' = rowsFetched w + Z.of_nat (length (ev :: events))
                  /\ rowsAppended w' = rowsAppended w + Z.of_nat (length (ev :: events)))).
    { intros w1 e Hf Hp Hsame Heq. inversion Heq; subst. split; [exact Hsame|].
      split; [cbn [length]; lia|]. split; [lia|]. discriminate. }
    run_monad_in H.
    destruct (scanError ev) as [e|] eqn:Hs.
    { apply (Hstop (fetchRow w) e); try assumption; cbn; try lia. repeat split. }
    destruct (appendError ev) as [e|] eqn:Ha.
    { apply (Hstop (fetchRow w) e); try assumption; cbn; try lia. repeat split. }
    destruct (count + 1 >? maxCount).
    { apply (Hstop (appendRow (fetchRow w)) (ErrPivotCellsLimitExceeded maxPivotCells));
        try assumption; cbn; try lia. repeat split. }
    clear Hstop.
    destruct (count + 1 >=? batchSize); apply IH in H;
      destruct H as ((H1 & H2 & H3 & H4) & Hf & Hp & Hok);
      cbn [length];
      cbn -[Z.add Z.sub Z.of_nat] in H1, H2, H3, H4, Hf, Hp, Hok;
      (split; [auto|]); (split; [lia|]); (split; [lia|]);
      intros Hr; destruct (Hok Hr) as (Hall & Hf' & Hp');
      (split; [constructor; [split; assumption | assumption] | lia]).
Qed.

Lemma appendRows_run (B : Backend) q rows w w' r :
  appendRows B q rows w = (w', r) ->
  sameBackends w w'
  /\ rowsFetched w' - rowsFetched w - 1 <= rowsAppended w' - rowsAppended w
     <= rowsFetched w' - rowsFetched w
  /\ (r = inr tt ->
      Forall scansAndAppends (rowEvents rows)
      /\ rowsAppended w' = rowsAppended w + Z.of_nat (length (rowEvents rows))).
Proof.
  unfold appendRows, sameBackends. intros H. run_monad_in H.
  destruct (isDriverConn B); cbn [negb] in H;
    [|inversion H; subst; repeat split; try lia; discriminate].
  destruct (NewAppenderFromConn B);
    [inversion H; subst; repeat split; try lia; discriminate|].
  destruct (rowsColumns rows);
    [inversion H; subst; cbn; repeat split; try lia; discriminate|].
  destruct (appendLoop (Z.quot maxPivotCells (cols q)) (rowEvents rows) 0 w) as [w1 r1] eqn:E.
  inversion H; subst. apply appendLoop_counts in E.
  destruct E as ((H1 & H2 & H3 & H4) & Hf & Hp & Hok). cbn.
  repeat split; try assumption; try lia; now apply Hok.
Qed.

(** X14: when the function [pivotDruid] hands to [conn.Raw] returns nil,
    every row of the base result was scanned and appended without an error:
    rows are appended one for each row fetched, in step, and a nil return
    means the whole result was copied. Whatever it returns, it sends no
    statement and creates or drops no table. *)
Theorem appended_rows_are_complete (B : Backend) q rows w w' r :
  appendRows B q rows w = (w', r) ->
  olapStatements w' = olapStatements w /\ olapTempTables w' = olapTempTables w
  /\ pivotStatements w' = pivotStatements w /\ pivotTempTables w' = pivotTempTables w
  /\ rowsFetched w' - rowsFetched w - 1 <= rowsAppended w' - rowsAppended w
     <= rowsFetched w' - rowsFetched w
  /\ (r = inr tt ->
      Forall scansAndAppends (rowEvents rows)
      /\ rowsAppended w' = rowsAppended w + Z.of_nat (length (rowEvents rows))).
Proof.
  intros H. apply appendRows_run in H.
  destruct H as ((H1 & H2 & H3 & H4) & Hc & Hok).
  split; [exact H1|]. split; [exact H2|]. split; [exact H3|]. split; [exact H4|].
  split; [exact Hc | exact Hok].
Qed.

Lemma small_budget (q : MetricsViewAggregation) :
  100 < cols q -> 0 <= Z.quot maxPivotCells (cols q) < batchSize.
Proof.
  intros Hc. rewrite Z.quot_div_nonneg by (unfold maxPivotCells; lia).
  unfold maxPivotCells, batchSize. split.
  - apply Z.div_pos; lia.
  - apply Z.div_lt_upper_bound; nia.
Qed.

(** X15: for a request of more than 100 columns the budget is below one
    batch, and the transfer enforces it: on a base result of more rows than
    the budget that all scan and append, it stops with the cell-limit error
    at the first row over the budget, having fetched one row more than the
    budget and none of the rest. *)
Theorem transfer_enforces_small_budget (B : Backend) q rows columns w :
  100 < cols q ->
  isDriverConn B = true -> NewAppenderFromConn B = None ->
  rowsColumns rows = inr columns ->
  Forall scansAndAppends (rowEvents rows) ->
  Z.quot maxPivotCells (cols q) < Z.of_nat (length (rowEvents rows)) ->
  exists w',
    appendRows B q rows w = (w', inl (ErrPivotCellsLimitExceeded maxPivotCells))
    /\ rowsFetched w' = rowsFetched w + Z.quot maxPivotCells (cols q) + 1.
Proof.
  intros Hc Hd Ha Hcols Hall Hlen. unfold appendRows. rewrite Hd. cbn [negb].
  unfold bind at 1, check at 1. rewrite Ha. unfold ret at 1. unfold defer.
  unfold bind, lift. rewrite Hcols.
  destruct (small_budget q Hc) as [H0 Hb].
  destruct (appendLoop_small_budget (Z.quot maxPivotCells (cols q)) (rowEvents rows) Hb Hall
              0 w) as (w1 & Hrun & Hf); [lia | lia |].
  rewrite Hrun. exists (close "appender" w1). split; [reflexivity|]. cbn. lia.
Qed.

(** ** Cleanup of the manual path *)

(** X16: [pivotDruid] touches nothing of the OLAP backend; once it is
    connected to the embedded engine it closes it last; and once it has
    created its temporary table there, the last statement it sends is the
    [DROP] of that table, on every return, and when that statement succeeds
    the embedded engine has the tables it had before. *)
Theorem manual_path_cleans_up (B : Backend) rows q w q' w' r :
  pivotDruid B rows (q, w) = ((q', w'), r) ->
  olapStatements w' = olapStatements w /\ olapTempTables w' = olapTempTables w
  /\ (Connect B = None -> exists others, closed w' = (others ++ ["pivotDB"])%list)
  /\ forall createTableSQL,
       Connect B = None ->
       CreateTableQuery B (rowsSchema rows) (tempName "_for_pivot_") = inr createTableSQL ->
       ExecContext B createTableSQL = None ->
       (exists sent,
          pivotStatements w' = (sent ++ [dropStatement (tempName "_for_pivot_")])%list)
       /\ (ExecContext B (dropStatement (tempName "_for_pivot_")) = None ->
           ~ In (tempName "_for_pivot_") (pivotTempTables w) ->
           pivotTempTables w' = pivotTempTables w).
Proof.
  intros H. unfold pivotDruid in H. run_monad_in H. unfold pivotDrop in H.
  split_cases_in H; inversion H; subst; clear H;
    try match goal with
        | Ha : appendRows _ _ _ _ = _ |- _ =>
            apply appendRows_run in Ha; destruct Ha as ((A1 & A2 & A3 & A4) & _);
            cbn in A1, A2, A3, A4
        end;
    cbn; unfold append1;
    (split; [congruence|]); (split; [congruence|]);
    (split; [intros HC; try congruence; eexists; reflexivity|]);
    intros createTableSQL HC HQ HE; try congruence;
    (split; [eexists; reflexivity|]);
    intros HD Hn; try congruence;
    rewrite ?A4; cbn; try (apply (removeTable_appended _ _ Hn)).
Qed.

(** ** Cleanup of the native path after the count check *)

(** X17: on the native path, once the temporary table is created and the
    count probe has answered with no row or with a count within the budget,
    the drop is deferred: whether the pivot query succeeds or fails, the
    last statement sent is the [DROP] of the temporary table and, when it
    succeeds, the session has the temporary tables it had before. *)
Theorem native_path_drops_after_check (B : Backend) priority sqlString args q w res :
  Exec B ("CREATE TEMPORARY TABLE " ++ tempName "_for_pivot_" ++ " AS " ++ sqlString) args
  = None ->
  ExecuteCount B ("SELECT COUNT(*) FROM " ++ tempName "_for_pivot_") = inr res ->
  (res = None
   \/ exists count, res = Some (inr count) /\ count <= Z.quot maxPivotCells (cols q)) ->
  exists q' w' r sent,
    pivotNative B priority sqlString args (q, w) = ((q', w'), r)
    /\ olapStatements w' = (sent ++ [dropStatement (tempName "_for_pivot_")])%list
    /\ (Exec B (dropStatement (tempName "_for_pivot_")) [] = None ->
        ~ In (tempName "_for_pivot_") (olapTempTables w) ->
        olapTempTables w' = olapTempTables w).
Proof.
  intros HE HC Hres.
  destruct (pivotNative B priority sqlString args (q, w)) as [[q' w'] r] eqn:H.
  exists q', w', r. unfold pivotNative in H. run_monad_in H. unfold olapDrop in H.
  rewrite HE, HC in H. cbv beta iota in H.
  destruct Hres as [-> | (count & -> & Hle)].
  - cbv beta iota in H. cbn [fst snd] in H.
    split_cases_in H; inversion H; subst; clear H; cbn; unfold append1;
      eexists; (split; [reflexivity|]); (split; [reflexivity|]);
      intros HD Hn; try congruence; apply (removeTable_appended _ _ Hn).
  - cbv beta iota in H. cbn [fst snd] in H.
    split_cases_in H; inversion H; subst; clear H;
      try match goal with
          | Hb : (_ >? _) = true |- _ => apply Z.gtb_lt in Hb; lia
          end;
      cbn; unfold append1;
      eexists; (split; [reflexivity|]); (split; [reflexivity|]);
      intros HD Hn; try congruence; apply (removeTable_appended _ _ Hn).
Qed.

(** ** What a nil return of a pivot path means *)

(** X25: when the native pivot path returns nil, the temporary table was
    created, the count probe found no row or a count within the budget, and
    the result stored in the request is what the backend answered to the
    pivot query of [createPivotSQL]. *)
Theorem native_path_result (B : Backend) priority sqlString args q w q' w' :
  pivotNative B priority sqlString args (q, w) = ((q', w'), inr tt) ->
  Exec B (createTableAs sqlString) args = None
  /\ (ExecuteCount B ("SELECT COUNT(*) FROM " ++ tempName "_for_pivot_") = inr None
      \/ exists count,
           ExecuteCount B ("SELECT COUNT(*) FROM " ++ tempName "_for_pivot_")
           = inr (Some (inr count))
           /\ count <= Z.quot maxPivotCells (cols q))
  /\ exists pivotSQL schema data,
       snd (createPivotSQL (tempName "_for_pivot_") q) = inr pivotSQL
       /\ olapQueryResult B pivotSQL [] = inr (schema, data)
       /\ q' = set_Result (Some {| Schema := schema; Data := data |})
                 (fst (createPivotSQL (tempName "_for_pivot_") q)).
Proof.
  intros H. unfold pivotNative in H. run_monad_in H. unfold olapDrop in H.
  fold (createTableAs sqlString) in H. rewrite createPivotSQL_run. cbn [fst snd].
  split_cases_in H; inversion H; subst; clear H;
    (split; [reflexivity|]);
    (split; [first [ left; reflexivity
                   | right; eexists; split; [reflexivity|];
                     match goal with
                     | Hb : (_ >? _) = false |- _ =>
                         rewrite Z.gtb_ltb in Hb; apply Z.ltb_ge in Hb; exact Hb
                     end ]|]);
    (eexists _, _, _; (split; [reflexivity|]); (split; [eassumption | reflexivity])).
Qed.

(** X26: when [pivotDruid] returns nil, either no connection of the
    embedded engine could be taken and the request is as it was, or every
    row of the base result was appended and the result stored in the request
    is the schema and the converted rows of the pivot query of
    [createPivotSQL] on the embedded engine. *)
Theorem manual_path_result (B : Backend) rows q w q' w' :
  pivotDruid B rows (q, w) = ((q', w'), inr tt) ->
  (exists e, Conn B = Some e /\ q' = q)
  \/ (Forall scansAndAppends (rowEvents rows)
      /\ rowsAppended w' = rowsAppended w + Z.of_nat (length (rowEvents rows))
      /\ rowsErr rows = None
      /\ exists pivotSQL pivotRows schema data,
           snd (createPivotSQL (tempName "_for_pivot_") q) = inr pivotSQL
           /\ QueryxContext B pivotSQL = inr pivotRows
           /\ RowsToSchema B = inr schema
           /\ toData B pivotRows schema = inr data
           /\ q' = set_Result (Some {| Schema := schema; Data := data |})
                     (fst (createPivotSQL (tempName "_for_pivot_") q))).
Proof.
  intros H. unfold pivotDruid in H. run_monad_in H. unfold pivotDrop in H.
  rewrite createPivotSQL_run. cbn [fst snd].
  split_cases_in H; inversion H; subst; clear H;
    try solve [left; eexists; split; reflexivity];
    right;
    match goal with
    | Ha : appendRows _ _ _ _ = (_, inr ?u) |- _ =>
        destruct u; apply appendRows_run in Ha;
        destruct Ha as (_ & _ & Hok); destruct (Hok eq_refl) as [Hall Hcount];
        cbn in Hcount
    end;
    (split; [exact Hall|]); (split; [cbn; lia|]); (split; [reflexivity|]);
    (eexists _, _, _, _; repeat (split; [first [reflexivity | eassumption]|]); reflexivity).
Qed.

(** ** The statements [Resolve] sends *)

Lemma pivotNative_statements (B : Backend) priority sqlString args q w q' w' r :
  pivotNative B priority sqlString args (q, w) = ((q', w'), r) ->
  pivotStatements w' = pivotStatements w
  /\ exists rest,
       olapStatements w'
       = (olapStatements w
          ++ createTableAs sqlString :: rest)%list.
Proof.
  intros H. unfold pivotNative in H. run_monad_in H. unfold olapDrop in H.
  fold (createTableAs sqlString) in H.
  split_cases_in H; inversion H; subst; clear H;
    cbn [olapStatements pivotStatements close sendOlap setOlapTables];
    unfold append1; rewrite <- ?app_assoc; cbn [app];
    (split; [reflexivity|]); eexists; reflexivity.
Qed.

Lemma pivotDruid_olap_untouched (B : Backend) rows q w q' w' r :
  pivotDruid B rows (q, w) = ((q', w'), r) -> olapStatements w' = olapStatements w.
Proof.
  intros H. unfold pivotDruid in H. run_monad_in H. unfold pivotDrop in H.
  split_cases_in H; inversion H; subst; clear H;
    try match goal with
        | Ha : appendRows _ _ _ _ = _ |- _ =>
            apply appendRows_run in Ha; destruct Ha as ((A1 & _) & _); cbn in A1
        end;
    cbn; congruence.
Qed.

(** X18: [Resolve] sends nothing to the OLAP backend unless the request
    compiled, and then the first statement it sends is the compiled query
    itself or, on the native pivot path, [CREATE TEMPORARY TABLE t AS]
    followed by the compiled query; the embedded pivot engine is used only
    after that. *)
Theorem resolve_sends_compiled_query_first (B : Backend) priority q w q' w' r :
  Resolve B priority (q, w) = ((q', w'), r) ->
  (olapStatements w' = olapStatements w /\ pivotStatements w' = pivotStatements w)
  \/ exists dialect q1 sqlString args rest,
       buildMetricsAggregationSQL (MetricsView q) dialect (ResolvedMVSecurity q)
         (withLegacyFilter q) = (q1, inr (sqlString, args))
       /\ (olapStatements w' = (olapStatements w ++ sqlString :: rest)%list
           \/ olapStatements w'
              = (olapStatements w
                 ++ createTableAs sqlString :: rest)%list).
Proof.
  intros H. unfold Resolve in H. run_monad_in H.
  split_cases_in H; inversion H; subst; clear H;
    try solve [left; split; reflexivity];
    match goal with
    | Hf : Filter ?q = None |- _ => pose proof (withLegacyFilter_none q Hf) as Hlf
    | Hf : Filter ?q = Some ?f, Hw : Where ?q = None |- _ =>
        pose proof (withLegacyFilter_some q f Hf Hw) as Hlf
    end;
    try solve [left; split; reflexivity];
    right;
    match goal with
    | Hb : buildMetricsAggregationSQL _ ?d _ _ = (?q1, inr (?sql, ?args)) |- _ =>
        exists d, q1, sql, args
    end;
    try match goal with
    | Hp : pivotNative _ _ _ _ _ = (?p0, _) |- _ =>
        destruct p0 as [qf wf]; apply pivotNative_statements in Hp;
        destruct Hp as (_ & rest & Hrest); exists rest;
        (split; [rewrite Hlf; assumption|]); right; cbn; exact Hrest
    | Hp : pivotDruid _ _ _ = (?p0, _) |- _ =>
        destruct p0 as [qf wf]; apply pivotDruid_olap_untouched in Hp;
        exists []; (split; [rewrite Hlf; assumption|]); left; cbn; rewrite Hp; reflexivity
    end;
    exists []; (split; [rewrite Hlf; assumption|]); left; reflexivity.
Qed.

End MoreExecutionProperties.

(** * Properties of the cached result and of the export *)

Section ExportProperties.
Context {MSG : Messages} {HLP : Helpers} {EXP : Exporters}.


(** ** The file name *)




Lemma length_append (a b : string) :
  String.length (a ++ b) = (String.length a + String.length b)%nat.
Proof. induction a as [|x a IH]; cbn; [reflexivity | now rewrite IH]. Qed.


(** ** What an export does and how it ends *)

(** X21: [Export] changes the request and the backends only through
    [Resolve], and runs a writer only when [Resolve] returned nil and left a
    result, the format is CSV, XLSX or Parquet and the hook, if there is
    one, was called with the file name before and returned nil; the writer
    gets the columns of the stored schema and the stored rows. *)
Theorem export_writes_after_resolve_and_hook (B : Backend) opts s s1 events ending :
  Export B opts s = (s1, events, ending) ->
  s1 = fst (Resolve B (OptPriority opts) s)
  /\ forall format meta data,
       In (Written format meta data) events ->
       snd (Resolve B (OptPriority opts) s) = inr tt
       /\ (exists res,
             Result (fst s1) = Some res /\ data = Data res
             /\ meta = structTypeToMetricsViewColumn (Schema res))
       /\ format = OptFormat opts
       /\ (format = ExportFormat_EXPORT_FORMAT_CSV
           \/ format = ExportFormat_EXPORT_FORMAT_XLSX
           \/ format = ExportFormat_EXPORT_FORMAT_PARQUET)
       /\ match PreWriteHook opts with
          | Some hook =>
              hook (exportFilename (fst s1)) = None
              /\ events = [HookCalled (exportFilename (fst s1)); Written format meta data]
          | None => events = [Written format meta data]
          end.
Proof.
  unfold Export. intros H.
  destruct (Resolve B (OptPriority opts) s) as [s0 [err|[]]] eqn:ER; cbn [fst snd].
  { inversion H; subst. split; [reflexivity|]. intros ? ? ? []. }
  destruct (Result (fst s0)) as [res|] eqn:ERes.
  2:{ inversion H; subst. split; [reflexivity|]. intros ? ? ? []. }
  assert (Hcase : forall hookEvents,
            (forall f m d, ~ In (Written f m d) hookEvents) ->
            (if OptFormat opts =? ExportFormat_EXPORT_FORMAT_UNSPECIFIED
             then (s0, hookEvents, Returns (Some ErrUnspecifiedFormat))
             else if OptFormat opts =? ExportFormat_EXPORT_FORMAT_CSV
             then (s0, append1 hookEvents
                         (Written (OptFormat opts)
                            (structTypeToMetricsViewColumn (Schema res)) (Data res)),
                   returnErr (writeCSV (structTypeToMetricsViewColumn (Schema res)) (Data res)))
             else if OptFormat opts =? ExportFormat_EXPORT_FORMAT_XLSX
             then (s0, append1 hookEvents
                         (Written (OptFormat opts)
                            (structTypeToMetricsViewColumn (Schema res)) (Data res)),
                   returnErr (writeXLSX (structTypeToMetricsViewColumn (Schema res)) (Data res)))
             else if OptFormat opts =? ExportFormat_EXPORT_FORMAT_PARQUET
             then (s0, append1 hookEvents
                         (Written (OptFormat opts)
                            (structTypeToMetricsViewColumn (Schema res)) (Data res)),
                   returnErr (writeParquet (structTypeToMetricsViewColumn (Schema res))
                                (Data res)))
             else (s0, hookEvents, Returns None)) = (s1, events, ending) ->
            s1 = s0
            /\ forall format meta data,
                 In (Written format meta data) events ->
                 data = Data res /\ meta = structTypeToMetricsViewColumn (Schema res)
                 /\ format = OptFormat opts
                 /\ (format = ExportFormat_EXPORT_FORMAT_CSV
                     \/ format = ExportFormat_EXPORT_FORMAT_XLSX
                     \/ format = ExportFormat_EXPORT_FORMAT_PARQUET)
                 /\ events = append1 hookEvents (Written format meta data)).
  { intros hookEvents Hnone Hrun.
    destruct (Z.eqb_spec (OptFormat opts) ExportFormat_EXPORT_FORMAT_UNSPECIFIED) as [E0|N0];
      [inversion Hrun; subst; split; [reflexivity|]; intros f m d Hin;
       now apply Hnone in Hin|].
    assert (Hwritten : forall f m d,
              In (Written f m d)
                (append1 hookEvents
                   (Written (OptFormat opts) (structTypeToMetricsViewColumn (Schema res))
                      (Data res))) ->
              d = Data res /\ m = structTypeToMetricsViewColumn (Schema res)
              /\ f = OptFormat opts).
    { intros f m d Hin. unfold append1 in Hin. apply in_app_or in Hin.
      destruct Hin as [Hin|[Hin|[]]]; [now apply Hnone in Hin|]. inversion Hin; auto. }
    destruct (Z.eqb_spec (OptFormat opts) ExportFormat_EXPORT_FORMAT_CSV) as [E1|N1];
      [inversion Hrun; subst; split; [reflexivity|]; intros f m d Hin;
       destruct (Hwritten f m d Hin) as (-> & -> & ->); auto 8|].
    destruct (Z.eqb_spec (OptFormat opts) ExportFormat_EXPORT_FORMAT_XLSX) as [E2|N2];
      [inversion Hrun; subst; split; [reflexivity|]; intros f m d Hin;
       destruct (Hwritten f m d Hin) as (-> & -> & ->); auto 8|].
    destruct (Z.eqb_spec (OptFormat opts) ExportFormat_EXPORT_FORMAT_PARQUET) as [E3|N3];
      [inversion Hrun; subst; split; [reflexivity|]; intros f m d Hin;
       destruct (Hwritten f m d Hin) as (-> & -> & ->); auto 8|].
    inversion Hrun; subst. split; [reflexivity|]. intros f m d Hin. now apply Hnone in Hin. }
  destruct (PreWriteHook opts) as [hook|].
  - destruct (hook (exportFilename (fst s0))) as [err|] eqn:EH.
    { inversion H; subst. split; [reflexivity|]. intros f m d [Hin|[]]. discriminate. }
    apply Hcase in H; [|intros f m d [Hin|[]]; discriminate].
    destruct H as [-> Hw]. split; [reflexivity|]. intros f m d Hin.
    destruct (Hw f m d Hin) as (-> & -> & -> & Hf & ->).
    rewrite EH. repeat split; eauto.
  - apply Hcase in H; [|intros f m d []].
    destruct H as [-> Hw]. split; [reflexivity|]. intros f m d Hin.
    destruct (Hw f m d Hin) as (-> & -> & -> & Hf & ->). repeat split; eauto.
Qed.

(** X22: [Export] passes an error of [Resolve] on without calling the hook
    or a writer, and it ends in a nil-pointer panic exactly when [Resolve]
    returned nil and left the request without a result. *)
Theorem export_panics_without_result (B : Backend) opts s s1 events ending :
  Export B opts s = (s1, events, ending) ->
  (forall err, snd (Resolve B (OptPriority opts) s) = inl err ->
               ending = Returns (Some (ErrFrom err)) /\ events = [])
  /\ (ending = Panics <->
      snd (Resolve B (OptPriority opts) s) = inr tt
      /\ Result (fst (fst (Resolve B (OptPriority opts) s))) = None).
Proof.
  unfold Export. intros H.
  destruct (Resolve B (OptPriority opts) s) as [s0 [err|[]]] eqn:ER; cbn [fst snd].
  { inversion H; subst. split; [intros e He; inversion He; auto|].
    split; [discriminate | intros [? _]; discriminate]. }
  split; [discriminate|].
  destruct (Result (fst s0)) as [res|] eqn:ERes.
  2:{ inversion H; subst. split; auto. }
  split; [|intros [_ ?]; discriminate].
  intros ->. exfalso. revert H. unfold returnErr.
  destruct (PreWriteHook opts) as [hook|];
    [destruct (hook (exportFilename (fst s0)))|];
    try discriminate;
    destruct (OptFormat opts =? ExportFormat_EXPORT_FORMAT_UNSPECIFIED); try discriminate;
    destruct (OptFormat opts =? ExportFormat_EXPORT_FORMAT_CSV); try discriminate;
    destruct (OptFormat opts =? ExportFormat_EXPORT_FORMAT_XLSX); try discriminate;
    destruct (OptFormat opts =? ExportFormat_EXPORT_FORMAT_PARQUET); discriminate.
Qed.

(** X23: the format is looked at last: after [Resolve] has run the query
    and the hook has passed, an unspecified format ends the export with the
    error [unspecified format], and a format that is none of the four known
    ones ends it with nil; in both cases no writer has run. *)
Theorem export_without_writer (B : Backend) opts s q1 w1 res :
  Resolve B (OptPriority opts) s = ((q1, w1), inr tt) ->
  Result q1 = Some res ->
  hookPasses opts q1 ->
  (OptFormat opts = ExportFormat_EXPORT_FORMAT_UNSPECIFIED ->
   Export B opts s = ((q1, w1), hookEvents opts q1, Returns (Some ErrUnspecifiedFormat)))
  /\ (OptFormat opts <> ExportFormat_EXPORT_FORMAT_UNSPECIFIED ->
      OptFormat opts <> ExportFormat_EXPORT_FORMAT_CSV ->
      OptFormat opts <> ExportFormat_EXPORT_FORMAT_XLSX ->
      OptFormat opts <> ExportFormat_EXPORT_FORMAT_PARQUET ->
      Export B opts s = ((q1, w1), hookEvents opts q1, Returns None)).
Proof.
  intros HR Hres Hhook. unfold Export, hookEvents, hookPasses in *. rewrite HR.
  cbn [fst]. rewrite Hres.
  split.
  - intros ->. destruct (PreWriteHook opts) as [hook|]; [rewrite Hhook|]; reflexivity.
  - intros N0 N1 N2 N3.
    destruct (PreWriteHook opts) as [hook|]; [rewrite Hhook|];
      destruct (Z.eqb_spec (OptFormat opts) ExportFormat_EXPORT_FORMAT_UNSPECIFIED);
      try contradiction;
      destruct (Z.eqb_spec (OptFormat opts) ExportFormat_EXPORT_FORMAT_CSV);
      try contradiction;
      destruct (Z.eqb_spec (OptFormat opts) ExportFormat_EXPORT_FORMAT_XLSX);
      try contradiction;
      destruct (Z.eqb_spec (OptFormat opts) ExportFormat_EXPORT_FORMAT_PARQUET);
      try contradiction; reflexivity.
Qed.

(** X24: an export on the manual pivot path whose base query fails does not
    return the error: [Resolve] returns nil without a result, and [Export]
    panics on the nil result before the hook or a writer is called. *)
Theorem export_panics_when_base_query_fails (B : Backend) opts q w q1 sqlString args e :
  OLAP B = inr DialectDruid ->
  isEmpty (TimeDimension (MetricsView q)) && negb (isTimeRangeNil (QTimeRange q)) = false ->
  Filter q = None ->
  PivotOn q <> [] ->
  Result q = None ->
  buildMetricsAggregationSQL (MetricsView q) DialectDruid (ResolvedMVSecurity q) q
  = (q1, inr (sqlString, args)) ->
  Execute B sqlString args = inl e ->
  Export B opts (q, w) = ((q1, close "olap" (sendOlap sqlString w)), [], Panics).
Proof.
  intros HO HT HF HP HRes HB HX. unfold Export.
  rewrite (resolve_manual_execute_error B (OptPriority opts) q w q1 sqlString args e
             HO HT HF HP HB HX).
  cbn [fst]. apply build_ok_inv in HB.
  destruct HB as (_ & _ & _ & _ & _ & _ & _ & _ & _ & _ & -> & _).
  replace (Result (normalized q)) with (Result q)
    by (unfold normalized; destruct (Limit q) as [[| |]|]; reflexivity).
  now rewrite HRes.
Qed.

End ExportProperties.

(** * The further properties at concrete requests *)

Section MoreWitnesses.
Import Example MoreExamples.
#[local] Existing Instance messages.
#[local] Existing Instance helpers.
#[local] Existing Instance encoders.
#[local] Existing Instance exporters.


Lemma malformed_measure_rejected_witness :
  In unknownBuiltin (Measures malformedRequest) /\ malformedMeasure unknownBuiltin
  /\ exists e, snd (buildMetricsAggregationSQL adBids DialectDruid None malformedRequest)
               = inl e.
Proof.
  assert (Hin : In unknownBuiltin (Measures malformedRequest)) by (right; left; reflexivity).
  assert (Hbad : malformedMeasure unknownBuiltin)
    by (left; repeat split; discriminate).
  split; [exact Hin|]. split; [exact Hbad|].
  exact (malformed_measure_rejected adBids DialectDruid None malformedRequest unknownBuiltin
           Hin Hbad).
Defined.

Lemma compiled_args_order_witness :
  exists q' sql args,
    buildMetricsAggregationSQL adBids DialectDuckDB None dailyRequest = (q', inr (sql, args))
    /\ exists timeArgs whereFragment whereArgs havingFragment havingArgs,
         (if isEmpty (TimeDimension adBids)
          then timeArgs = timeBucketArgs dailyRequest DialectDuckDB (Dimensions dailyRequest)
          else exists clause,
                 timeRangeClause (QTimeRange dailyRequest) adBids DialectDuckDB
                   (safeName (TimeDimension adBids))
                   (timeBucketArgs dailyRequest DialectDuckDB (Dimensions dailyRequest))
                 = inr (clause, timeArgs))
         /\ isWhereFragmentWith dailyRequest adBids DialectDuckDB whereFragment whereArgs
         /\ isHavingFragment dailyRequest adBids DialectDuckDB havingFragment havingArgs
         /\ args = (timeArgs ++ whereArgs ++ havingArgs)%list.
Proof.
  eexists _, _, _. split; [vm_compute; reflexivity|].
  eapply (compiled_args_order adBids DialectDuckDB None dailyRequest).
  vm_compute; reflexivity.
Defined.


Lemma time_bucket_placeholders_witness :
  exists expr args,
    buildTimestampExpr dailyRequest (dailyIn "Europe/Copenhagen") DialectDuckDB
    = inr (expr, args)
    /\ exists col,
         isTimeColumn dailyRequest (dailyIn "Europe/Copenhagen") col
         /\ countChar "?"%char expr
            = Z.of_nat (length args) + countChar "?"%char col
              + countChar "?"%char
                  (bucketSpecifier DialectDuckDB (dailyIn "Europe/Copenhagen"))
         /\ Z.of_nat (length args)
            = if utcOrUnset (DimTimeZone (dailyIn "Europe/Copenhagen")) then 0
              else 2.
Proof.
  eexists _, _. split; [vm_compute; reflexivity|].
  eapply (time_bucket_placeholders dailyRequest (dailyIn "Europe/Copenhagen") DialectDuckDB).
  vm_compute; reflexivity.
Defined.

Lemma time_bucket_parentheses_witness :
  exists expr args,
    buildTimestampExpr dailyRequest (dailyIn "Europe/Copenhagen") DialectDruid
    = inr (expr, args)
    /\ exists col,
         isTimeColumn dailyRequest (dailyIn "Europe/Copenhagen") col
         /\ parenDepth expr
            = parenDepth col
              + parenDepth (bucketSpecifier DialectDruid (dailyIn "Europe/Copenhagen"))
              - (if Dialect_eqb DialectDruid DialectDruid
                    && negb (utcOrUnset (DimTimeZone (dailyIn "Europe/Copenhagen")))
                 then 1 else 0).
Proof.
  eexists _, _. split; [vm_compute; reflexivity|].
  eapply (time_bucket_parentheses dailyRequest (dailyIn "Europe/Copenhagen") DialectDruid).
  vm_compute; reflexivity.
Defined.


Lemma key_determines_limit_witness :
  Key (set_Limit (Some 10) dailyRequest) <> Key (set_Limit None dailyRequest)
  /\ Key (set_Result (Some {| Schema := []; Data := [] |}) dailyRequest) = Key dailyRequest.
Proof.
  destruct (key_determines_limit dailyRequest) as [Hinj Hres].
  split; [|apply Hres].
  intros H. apply Hinj in H. discriminate.
Defined.

Lemma resolve_changes_where_limit_result_only_witness :
  let q := legacyRequest in
  exists q' w' r,
    Resolve (backend DialectDuckDB 5 None None) 0 (q, emptyWorld) = ((q', w'), r)
    /\ MetricsViewName q' = MetricsViewName q /\ Dimensions q' = Dimensions q
    /\ Measures q' = Measures q /\ Sort q' = Sort q /\ QTimeRange q' = QTimeRange q
    /\ Having q' = Having q /\ Priority q' = Priority q /\ Offset q' = Offset q
    /\ MetricsView q' = MetricsView q /\ ResolvedMVSecurity q' = ResolvedMVSecurity q
    /\ PivotOn q' = PivotOn q /\ Filter q' = Filter q
    /\ (Where q' = Where q
        \/ (Where q = None
            /\ exists f, Filter q = Some f /\ Where q' = convertFilterToExpression f))
    /\ (Limit q' = Limit q \/ (Limit q = Some 0 /\ Limit q' = Some 100)).
Proof.
  intros q. eexists _, _, _. split; [vm_compute; reflexivity|].
  eapply (resolve_changes_where_limit_result_only (backend DialectDuckDB 5 None None) 0 q
            emptyWorld).
  vm_compute; reflexivity.
Defined.

Lemma resolve_error_keeps_result_witness :
  exists q' w' e,
    Resolve (backend DialectDuckDB 5 None None) 0 (malformedRequest, emptyWorld)
    = ((q', w'), inl e)
    /\ Result q' = Result malformedRequest.
Proof.
  eexists _, _, _. split; [vm_compute; reflexivity|].
  eapply (resolve_error_keeps_result (backend DialectDuckDB 5 None None) 0 malformedRequest
            emptyWorld).
  vm_compute; reflexivity.
Defined.

Lemma example_admitted (q : MetricsViewAggregation) dialect n :
  dialect <> DialectUnspecified ->
  isEmpty (TimeDimension (MetricsView q)) && negb (isTimeRangeNil (QTimeRange q)) = false ->
  Filter q = None \/ Where q = None ->
  admitted (backend dialect n None None) dialect q.
Proof. intros Hd Ht Hf. repeat split; assumption. Defined.

Lemma resolve_build_error_sends_nothing_witness :
  let B := backend DialectDuckDB 5 None None in
  let q := malformedRequest in
  admitted B DialectDuckDB q
  /\ exists q1 e,
       buildMetricsAggregationSQL (MetricsView q) DialectDuckDB (ResolvedMVSecurity q)
         (withLegacyFilter q) = (q1, inl e)
       /\ Resolve B 0 (q, emptyWorld)
          = ((q1, close "olap" emptyWorld), inl (ErrBuildingQuery e))
       /\ olapStatements (close "olap" emptyWorld) = olapStatements emptyWorld
       /\ pivotStatements (close "olap" emptyWorld) = pivotStatements emptyWorld.
Proof.
  intros B q.
  assert (Hadm : admitted B DialectDuckDB q)
    by (apply example_admitted; [discriminate | reflexivity | now left]).
  split; [exact Hadm|].
  eexists _, _. split; [vm_compute; reflexivity|].
  eapply (resolve_build_error_sends_nothing B 0 DialectDuckDB q emptyWorld _ _ Hadm).
  vm_compute; reflexivity.
Defined.

Lemma resolve_without_pivot_witness :
  let B := backend DialectDuckDB 5 None None in
  let q := legacyRequest in
  admitted B DialectDuckDB q /\ PivotOn q = []
  /\ exists q1 sqlString args,
       buildMetricsAggregationSQL (MetricsView q) DialectDuckDB (ResolvedMVSecurity q)
         (withLegacyFilter q) = (q1, inr (sqlString, args))
       /\ Resolve B 0 (q, emptyWorld) =
          match olapQueryResult B sqlString args with
          | inr (schema, data) =>
              ((set_Result (Some {| Schema := schema; Data := data |}) q1,
                close "olap" (sendOlap sqlString emptyWorld)), inr tt)
          | inl err => ((q1, close "olap" (sendOlap sqlString emptyWorld)), inl err)
          end.
Proof.
  intros B q.
  assert (Hadm : admitted B DialectDuckDB q)
    by (apply example_admitted; [discriminate | reflexivity | now right]).
  split; [exact Hadm|]. split; [reflexivity|].
  eexists _, _, _. split; [vm_compute; reflexivity|].
  eapply (resolve_without_pivot B 0 DialectDuckDB q emptyWorld _ _ _ Hadm eq_refl).
  vm_compute; reflexivity.
Defined.

Lemma appended_rows_are_complete_witness :
  let B := backend DialectDruid 3 None None in
  let q := request None 0 ["year"] in
  exists w' r,
    appendRows B q (manyRows 3) emptyWorld = (w', r)
    /\ olapStatements w' = olapStatements emptyWorld
    /\ olapTempTables w' = olapTempTables emptyWorld
    /\ pivotStatements w' = pivotStatements emptyWorld
    /\ pivotTempTables w' = pivotTempTables emptyWorld
    /\ rowsFetched w' - rowsFetched emptyWorld - 1
       <= rowsAppended w' - rowsAppended emptyWorld
       <= rowsFetched w' - rowsFetched emptyWorld
    /\ (r = inr tt ->
        Forall scansAndAppends (rowEvents (manyRows 3))
        /\ rowsAppended w'
           = rowsAppended emptyWorld + Z.of_nat (length (rowEvents (manyRows 3)))).
Proof.
  intros B q. eexists _, _. split; [vm_compute; reflexivity|].
  eapply (appended_rows_are_complete B q (manyRows 3) emptyWorld).
  vm_compute; reflexivity.
Defined.

Lemma manyRows_good (n : nat) : Forall scansAndAppends (rowEvents (manyRows n)).
Proof.
  apply Forall_forall. intros ev Hin. apply repeat_spec in Hin. subst ev.
  split; reflexivity.
Defined.

Lemma transfer_enforces_small_budget_witness :
  let B := backend DialectDruid 9901 None None in
  let rows := manyRows (Z.to_nat 9901) in
  100 < cols wideRequest
  /\ Forall scansAndAppends (rowEvents rows)
  /\ Z.quot maxPivotCells (cols wideRequest) < Z.of_nat (length (rowEvents rows))
  /\ exists w',
       appendRows B wideRequest rows emptyWorld
       = (w', inl (ErrPivotCellsLimitExceeded maxPivotCells))
       /\ rowsFetched w'
          = rowsFetched emptyWorld + Z.quot maxPivotCells (cols wideRequest) + 1.
Proof.
  intros B rows.
  assert (Hc : 100 < cols wideRequest) by reflexivity.
  assert (Hall : Forall scansAndAppends (rowEvents rows)) by apply manyRows_good.
  assert (Hlen : Z.quot maxPivotCells (cols wideRequest)
                 < Z.of_nat (length (rowEvents rows))) by (vm_compute; reflexivity).
  split; [exact Hc|]. split; [exact Hall|]. split; [exact Hlen|].
  exact (transfer_enforces_small_budget B wideRequest rows ["domain"; "impressions"]
           emptyWorld Hc eq_refl eq_refl eq_refl Hall Hlen).
Defined.

Lemma manual_path_cleans_up_witness :
  let B := backend DialectDruid 3 None None in
  let name := tempName "_for_pivot_" in
  exists q' w' r,
    pivotDruid B (baseRows 3) (request None 0 ["year"], emptyWorld) = ((q', w'), r)
    /\ olapStatements w' = olapStatements emptyWorld
    /\ olapTempTables w' = olapTempTables emptyWorld
    /\ (Connect B = None -> exists others, closed w' = (others ++ ["pivotDB"])%list)
    /\ forall createTableSQL,
         Connect B = None ->
         CreateTableQuery B (rowsSchema (baseRows 3)) name = inr createTableSQL ->
         ExecContext B createTableSQL = None ->
         (exists sent, pivotStatements w' = (sent ++ [dropStatement name])%list)
         /\ (ExecContext B (dropStatement name) = None ->
             ~ In name (pivotTempTables emptyWorld) ->
             pivotTempTables w' = pivotTempTables emptyWorld).
Proof.
  intros B name. eexists _, _, _. split; [vm_compute; reflexivity|].
  eapply (manual_path_cleans_up B (baseRows 3) (request None 0 ["year"]) emptyWorld).
  vm_compute; reflexivity.
Defined.

Lemma native_path_drops_after_check_witness :
  let B := backend DialectDuckDB 5 None None in
  let q := request None 0 ["year"] in
  let name := tempName "_for_pivot_" in
  Exec B ("CREATE TEMPORARY TABLE " ++ name ++ " AS " ++ "SELECT 1") [] = None
  /\ ExecuteCount B ("SELECT COUNT(*) FROM " ++ name) = inr (Some (inr 5))
  /\ 5 <= Z.quot maxPivotCells (cols q)
  /\ exists q' w' r sent,
       pivotNative B 0 "SELECT 1" [] (q, emptyWorld) = ((q', w'), r)
       /\ olapStatements w' = (sent ++ [dropStatement name])%list
       /\ (Exec B (dropStatement name) [] = None ->
           ~ In name (olapTempTables emptyWorld) ->
           olapTempTables w' = olapTempTables emptyWorld).
Proof.
  intros B q name.
  assert (Hle : 5 <= Z.quot maxPivotCells (cols q)) by (vm_compute; discriminate).
  split; [reflexivity|]. split; [reflexivity|]. split; [exact Hle|].
  apply (native_path_drops_after_check B 0 "SELECT 1" [] q emptyWorld (Some (inr 5))
           eq_refl eq_refl).
  right. exists 5. split; [reflexivity | exact Hle].
Defined.

Lemma resolve_sends_compiled_query_first_witness :
  let B := backend DialectDuckDB 5 None None in
  let q := request None 0 ["year"] in
  exists q' w' r,
    Resolve B 0 (q, emptyWorld) = ((q', w'), r)
    /\ ((olapStatements w' = olapStatements emptyWorld
         /\ pivotStatements w' = pivotStatements emptyWorld)
        \/ exists dialect q1 sqlString args rest,
             buildMetricsAggregationSQL (MetricsView q) dialect (ResolvedMVSecurity q)
               (withLegacyFilter q) = (q1, inr (sqlString, args))
             /\ (olapStatements w'
                 = (olapStatements emptyWorld ++ sqlString :: rest)%list
                 \/ olapStatements w'
                    = (olapStatements emptyWorld ++ createTableAs sqlString :: rest)%list)).
Proof.
  intros B q. eexists _, _, _. split; [vm_compute; reflexivity|].
  eapply (resolve_sends_compiled_query_first B 0 q emptyWorld).
  vm_compute; reflexivity.
Defined.

Lemma native_path_result_witness :
  let B := backend DialectDuckDB 5 None None in
  let q := request None 0 ["year"] in
  let name := tempName "_for_pivot_" in
  exists q' w',
    pivotNative B 0 "SELECT 1" [] (q, emptyWorld) = ((q', w'), inr tt)
    /\ Exec B (createTableAs "SELECT 1") [] = None
    /\ (ExecuteCount B ("SELECT COUNT(*) FROM " ++ name) = inr None
        \/ exists count,
             ExecuteCount B ("SELECT COUNT(*) FROM " ++ name) = inr (Some (inr count))
             /\ count <= Z.quot maxPivotCells (cols q))
    /\ exists pivotSQL schema data,
         snd (createPivotSQL name q) = inr pivotSQL
         /\ olapQueryResult B pivotSQL [] = inr (schema, data)
         /\ q' = set_Result (Some {| Schema := schema; Data := data |})
                   (fst (createPivotSQL name q)).
Proof.
  intros B q name. eexists _, _. split; [vm_compute; reflexivity|].
  eapply (native_path_result B 0 "SELECT 1" [] q emptyWorld).
  vm_compute; reflexivity.
Defined.

Lemma manual_path_result_witness :
  let B := backend DialectDruid 3 None None in
  let q := request None 0 ["year"] in
  let name := tempName "_for_pivot_" in
  exists q' w',
    pivotDruid B (baseRows 3) (q, emptyWorld) = ((q', w'), inr tt)
    /\ ((exists e, Conn B = Some e /\ q' = q)
        \/ (Forall scansAndAppends (rowEvents (baseRows 3))
            /\ rowsAppended w'
               = rowsAppended emptyWorld + Z.of_nat (length (rowEvents (baseRows 3)))
            /\ rowsErr (baseRows 3) = None
            /\ exists pivotSQL pivotRows schema data,
                 snd (createPivotSQL name q) = inr pivotSQL
                 /\ QueryxContext B pivotSQL = inr pivotRows
                 /\ RowsToSchema B = inr schema
                 /\ toData B pivotRows schema = inr data
                 /\ q' = set_Result (Some {| Schema := schema; Data := data |})
                           (fst (createPivotSQL name q)))).
Proof.
  intros B q name. eexists _, _. split; [vm_compute; reflexivity|].
  eapply (manual_path_result B (baseRows 3) q emptyWorld).
  vm_compute; reflexivity.
Defined.

Lemma export_writes_after_resolve_and_hook_witness :
  let B := backend DialectDuckDB 5 None None in
  let s := (legacyRequest, emptyWorld) in
  exists s1 events ending,
    Export B csvWithHook s = (s1, events, ending)
    /\ s1 = fst (Resolve B (OptPriority csvWithHook) s)
    /\ forall format meta data,
         In (Written format meta data) events ->
         snd (Resolve B (OptPriority csvWithHook) s) = inr tt
         /\ (exists res,
               Result (fst s1) = Some res /\ data = Data res
               /\ meta = structTypeToMetricsViewColumn (Schema res))
         /\ format = OptFormat csvWithHook
         /\ (format = ExportFormat_EXPORT_FORMAT_CSV
             \/ format = ExportFormat_EXPORT_FORMAT_XLSX
             \/ format = ExportFormat_EXPORT_FORMAT_PARQUET)
         /\ match PreWriteHook csvWithHook with
            | Some hook =>
                hook (exportFilename (fst s1)) = None
                /\ events = [HookCalled (exportFilename (fst s1)); Written format meta data]
            | None => events = [Written format meta data]
            end.
Proof.
  intros B s. eexists _, _, _. split; [vm_compute; reflexivity|].
  eapply (export_writes_after_resolve_and_hook B csvWithHook s).
  vm_compute; reflexivity.
Defined.

Lemma export_panics_without_result_witness :
  let B := backend DialectDruid 3 (Some (ErrExternal "druid: query failed")) None in
  let s := (request None 0 ["year"], emptyWorld) in
  exists s1 events ending,
    Export B csvWithHook s = (s1, events, ending)
    /\ (forall err, snd (Resolve B (OptPriority csvWithHook) s) = inl err ->
                    ending = Returns (Some (ErrFrom err)) /\ events = [])
    /\ (ending = Panics <->
        snd (Resolve B (OptPriority csvWithHook) s) = inr tt
        /\ Result (fst (fst (Resolve B (OptPriority csvWithHook) s))) = None).
Proof.
  intros B s. eexists _, _, _. split; [vm_compute; reflexivity|].
  eapply (export_panics_without_result B csvWithHook s).
  vm_compute; reflexivity.
Defined.

Lemma export_without_writer_witness :
  let B := backend DialectDuckDB 5 None None in
  let s := (legacyRequest, emptyWorld) in
  let opts := formatWithHook 7 in
  exists q1 w1 res,
    Resolve B (OptPriority opts) s = ((q1, w1), inr tt)
    /\ Result q1 = Some res
    /\ hookPasses opts q1
    /\ OptFormat opts <> ExportFormat_EXPORT_FORMAT_UNSPECIFIED
    /\ OptFormat opts <> ExportFormat_EXPORT_FORMAT_CSV
    /\ OptFormat opts <> ExportFormat_EXPORT_FORMAT_XLSX
    /\ OptFormat opts <> ExportFormat_EXPORT_FORMAT_PARQUET
    /\ Export B opts s = ((q1, w1), hookEvents opts q1, Returns None).
Proof.
  intros B s opts. eexists _, _, _.
  split; [vm_compute; reflexivity|]. split; [reflexivity|]. split; [reflexivity|].
  do 4 (split; [discriminate|]).
  match goal with
  | |- Export _ _ _ = ((?q1, ?w1), _, _) =>
      edestruct (export_without_writer B opts s q1 w1) as [_ T];
        [vm_compute; reflexivity | reflexivity | reflexivity | apply T; discriminate]
  end.
Defined.

Lemma export_panics_when_base_query_fails_witness :
  let B := backend DialectDruid 3 (Some (ErrExternal "druid: query failed")) None in
  let q := request None 0 ["year"] in
  OLAP B = inr DialectDruid
  /\ Filter q = None /\ PivotOn q <> [] /\ Result q = None
  /\ exists q1 sqlString args,
       buildMetricsAggregationSQL (MetricsView q) DialectDruid (ResolvedMVSecurity q) q
       = (q1, inr (sqlString, args))
       /\ Execute B sqlString args = inl (ErrExternal "druid: query failed")
       /\ Export B csvWithHook (q, emptyWorld)
          = ((q1, close "olap" (sendOlap sqlString emptyWorld)), [], Panics).
Proof.
  intros B q.
  assert (HP : PivotOn q <> []) by discriminate.
  split; [reflexivity|]. split; [reflexivity|]. split; [exact HP|]. split; [reflexivity|].
  eexists _, _, _. split; [vm_compute; reflexivity|]. split; [reflexivity|].
  eapply (export_panics_when_base_query_fails B csvWithHook q emptyWorld _ _ _ _
            eq_refl eq_refl eq_refl HP eq_refl).
  - vm_compute; reflexivity.
  - reflexivity.
Defined.

End MoreWitnesses.
